(** * The WebSocket front-end and its control plane

    A shallow embedding of [server/ws/src/server_http.ts] and
    [server/ws/src/stats.ts]: the HTTP control endpoints, the connection
    upgrade handler, the [ConnectionSocket] built over a [ws] transport and
    the statistics collection and wipe.

    Calls that leave the two files (the session manager, the token decoder,
    the serializer, the HTTP response, the transport) are recorded as
    effects, in program order, by a small writer monad with exceptions. *)

From Stdlib Require Import Ascii.
From stdpp Require Import base option numbers strings list gmap fin_maps.

Set Warnings "-register-all".

Local Open Scope string_scope.
Local Open Scope Z_scope.
Local Open Scope list_scope.

(** ** Values exchanged with the outside *)

(** A value of TypeScript type [any], as far as the front-end builds or
    forwards one. *)
Inductive JSValue :=
| JSUndefined
| JSString (s : string)
| JSInt (z : Z)
| JSBool (b : bool)
| JSObject (fields : list JSField)
with JSField :=
| Field (key : string) (v : JSValue).

(** A JavaScript Number as [parseInt] produces one: [NaN], an integer that
    a double holds exactly, the negative zero, or an infinity. *)
Inductive JSNumber :=
| JNaN
| JNum (z : Z)
| JNegZero
| JInfinity (negative : bool).

(** An error object; only its message is kept. *)
Definition Err := string.

(** [Status] of [@hcengineering/platform]. *)
Record Status := { severity : string; code : string }.

Inductive ReqId :=
| IdNum (z : Z)
| IdStr (s : string).

(** [Response<any>] of [@hcengineering/rpc]; every field is optional. *)
Record Response := {
  id : option ReqId;
  result : option JSValue;
  error : option Status
}.

(** [WorkspaceId] and the decoded [Token]. *)
Record WorkspaceId := {
  name : string;
  productId : string
}.

Record TokenExtra := {
  admin : option string;
  mode : option string;
  model : option string
}.

Record Token := {
  email : string;
  workspace : WorkspaceId;
  extra : option TokenExtra
}.

(** The bytes [serialize(msg, binary)] returns.  The serializer lives in
    [@hcengineering/rpc]; its output is kept symbolic, as the message and the
    format it was asked for. *)
Record Serialized := serialize {
  ser_msg : Response;
  ser_binary : bool
}.

(** ** Metrics *)

(** Metric objects live in a store and are referred to by location, since
    [wipeStatistics] mutates them in place through a work list of
    references. *)
Definition loc := positive.

(** The children of a [Metrics] object, in [Object.values] order:
    [measurements : Record<string, Metrics>] and
    [params : Record<string, Record<string, MetricsData>>]. *)
Record MetricsChildren := {
  measurements : list (string * loc);
  params : list (string * list (string * loc))
}.

(** [Metrics | MetricsData].  [sub] is [Some] exactly when the object has a
    [measurements] property, that is, when it is a [Metrics]. *)
Record MetricsNode := {
  operations : Z;
  value : Z;
  topResult : option (list Z);
  sub : option MetricsChildren
}.

(** A [MeasureContext]: either a [MeasureMetricsContext], which owns a
    [metrics] object, or some other implementation of the interface. *)
Inductive MeasureContext :=
| MeasureMetricsContext (metrics : loc)
| OtherMeasureContext.

(** ** Sessions, sockets, workspaces and the manager (types.ts) *)

Record SessionRequest := {
  req_id : string;
  req_params : JSValue;
  req_start : Z
}.

Record StatisticsElement := {
  se_find : Z;
  se_tx : Z
}.

Record Session := {
  createTime : Z;
  getUser : string;
  sessionId : string;
  sessionInstanceId : option string;
  workspaceClosed : option bool;
  requests : gmap string SessionRequest;
  binaryMode : bool;
  useCompression : bool;
  useBroadcast : bool;
  total : StatisticsElement;
  current : StatisticsElement;
  mins5 : StatisticsElement;
  measureCtx : option (MeasureContext * Z);
  lastRequest : Z;
  isUpgradeClient : bool;
  getMode : string
}.

(** What [data()] of a connection socket returns. *)
Record SocketData := {
  remoteAddress : string;
  userAgent : string;
  language : string;
  data_email : string;
  data_mode : option string;
  data_model : option string
}.

Record ConnectionSocket := {
  cs_id : string;
  isClosed : bool;
  data : SocketData
}.

Record SessionRef := {
  session : Session;
  socket : ConnectionSocket
}.

Record Workspace := {
  context : MeasureContext;
  ws_id : string;
  pipeline : positive;
  ws_sessions : gmap string SessionRef;
  upgrade : bool;
  backup : bool;
  closing : option positive;
  softShutdown : Z;
  workspaceId : WorkspaceId;
  workspaceName : string
}.

Record SessionManager := {
  workspaces : gmap string Workspace;
  sessions : gmap string SessionRef
}.

(** [AddSessionResponse].  [upgradeInfo] is not in the declared type; the
    front-end reads it through a cast, so it is an optional field here. *)
Inductive AddSessionResponse :=
| AddSessionActive (s : Session) (ctx : MeasureContext) (wsId : string)
| AddSessionUpgrade (upgradeInfo : option JSValue)
| AddSessionError (err : Err).

(** ** The statistics document (stats.ts) *)

Record SessionStats := {
  userId : string;
  st_data : SocketData;
  st_mins5 : StatisticsElement;
  st_total : StatisticsElement;
  st_current : StatisticsElement;
  st_upgrade : bool
}.

Record WorkspaceStats := {
  st_sessions : list SessionStats;
  st_name : string;
  wsId : string;
  sessionsTotal : nat;
  upgrading : bool;
  st_closing : bool
}.

(** The memory and load gauges read from [process] and [os]. *)
Record Gauges := {
  memoryUsed : Z;
  memoryTotal : Z;
  cpuUsage : Z;
  freeMem : Z;
  totalMem : Z
}.

Record Statistics := {
  activeSessions : gmap string WorkspaceStats;
  totalClients : nat;
  gauges : Gauges
}.

(** [metrics] is [metricsAggregate] applied to the metrics of the context;
    the aggregator belongs to [@hcengineering/core], so the field keeps the
    context it is computed from. *)
Record StatisticsData := {
  data_metrics : MeasureContext;
  statistics : Statistics
}.

(** The body of the statistics response: [JSON.stringify] of the statistics
    spread with [users] and [admin].  [users] is bound to the function
    [getUsers] itself, which [JSON.stringify] leaves out. *)
Record StatisticsBody := {
  body_data : StatisticsData;
  body_admin : bool
}.

(** ** Effects *)

(** The calls that leave the two files, by the name of what is called:
    the logger and the metrics of the context, [Analytics], the console, the
    HTTP response, the session manager, the process, the WebSocket server and
    the transport. *)
Inductive Effect :=
| CtxError (msg : string)
| CtxMeasure (name : string) (v : Z)
| AnalyticsHandleError (e : Err)
| ConsoleError (e : Err)
| ResWriteHead (status : Z) (headers : option (list (string * string)))
| ResEnd (body : option StatisticsBody)
| ScheduleMaintenance (timeMinutes : JSNumber)
| WipeStatistics (ctx : MeasureContext)
| ForceClose (wsId : option string)
| ProcessExit (exit_code : Z)
| WssHandleUpgrade
| WsSend (smsg : Serialized) (binary : bool) (compress : option bool)
| WsSetOnMessage
| WsClose
| AddSession (token : Token) (rawToken : string) (productId : string)
    (sessionId : option string)
| DoSessionOp (buff : list string).

(** ** A writer monad with exceptions

    A computation yields the effects it performed and how it ended: with a
    value, with an exception, with the process exited, or suspended at an
    [await] that had not resumed when observation stopped. *)
Inductive Outcome (A : Type) :=
| Ret (a : A)
| Throw (e : Err)
| Exit (exit_code : Z)
| Pending.
Arguments Ret {A} a.
Arguments Throw {A} e.
Arguments Exit {A} exit_code.
Arguments Pending {A}.

Definition M (A : Type) : Type := list Effect * Outcome A.

#[global] Instance M_ret : MRet M := λ A a, ([], Ret a).

#[global] Instance M_bind : MBind M := λ A B f m,
  match m with
  | (t, Ret a) => let '(t', o) := f a in (t ++ t', o)
  | (t, Throw e) => (t, Throw e)
  | (t, Exit c) => (t, Exit c)
  | (t, Pending) => (t, Pending)
  end.

Definition emit (e : Effect) : M unit := ([e], Ret tt).
Definition throw {A} (e : Err) : M A := ([], Throw e).

(** [try { m } catch (err) { h err }]: only an exception reaches the
    handler. *)
Definition try_catch {A} (m : M A) (h : Err → M A) : M A :=
  match m with
  | (t, Throw e) => let '(t', o) := h e in (t ++ t', o)
  | _ => m
  end.

Definition trace {A} (m : M A) : list Effect := m.1.
Definition outcome {A} (m : M A) : Outcome A := m.2.

(** ** parseInt

    [parseInt(string)] without a radix.  A string holds the UTF-8 encoding
    of the JavaScript string.  Leading white space (the WhiteSpace and
    LineTerminator code points of ECMAScript) is skipped, a sign is read, a
    [0x] or [0X] prefix selects radix 16, and the longest prefix of digits is
    the value; no digit at all gives [NaN].  The value is rounded to the
    nearest double, ties to even, as Node does for a numeral of any
    length. *)
Definition byte_code (c : ascii) : Z := Z.of_nat (nat_of_ascii c).

(** The white space of one byte: U+0009 to U+000D and U+0020. *)
Definition is_white_space (c : ascii) : bool :=
  let n := Z.of_nat (nat_of_ascii c) in
  (n =? 32) || ((9 <=? n) && (n <=? 13)).

(** The white space of two bytes: U+00A0. *)
Definition is_white_space2 (a b : ascii) : bool :=
  (byte_code a =? 194) && (byte_code b =? 160).

(** The white space of three bytes: U+1680, U+2000 to U+200A, U+2028,
    U+2029, U+202F, U+205F, U+3000 and U+FEFF. *)
Definition is_white_space3 (a b c : ascii) : bool :=
  ((byte_code a =? 225) && ((byte_code b =? 154) && (byte_code c =? 128)))
  || ((byte_code a =? 226)
      && (((byte_code b =? 128)
           && (((128 <=? byte_code c) && (byte_code c <=? 138))
               || (byte_code c =? 168) || (byte_code c =? 169)
               || (byte_code c =? 175)))
          || ((byte_code b =? 129) && (byte_code c =? 159))))
  || ((byte_code a =? 227) && ((byte_code b =? 128) && (byte_code c =? 128)))
  || ((byte_code a =? 239) && ((byte_code b =? 187) && (byte_code c =? 191))).

Fixpoint trim_start (s : string) : string :=
  match s with
  | String a r =>
      if is_white_space a then trim_start r
      else
        match r with
        | String b r' =>
            if is_white_space2 a b then trim_start r'
            else
              match r' with
              | String c r'' =>
                  if is_white_space3 a b c then trim_start r'' else s
              | EmptyString => s
              end
        | EmptyString => s
        end
  | EmptyString => s
  end.

Definition digit_value (c : ascii) : option Z :=
  let n := Z.of_nat (nat_of_ascii c) in
  if (48 <=? n) && (n <=? 57) then Some (n - 48)
  else if (97 <=? n) && (n <=? 122) then Some (n - 87)
  else if (65 <=? n) && (n <=? 90) then Some (n - 55)
  else None.

(** The value of the longest prefix of radix-[R] digits of [s], continuing
    from [acc]; [None] while no digit has been read. *)
Fixpoint parse_digits (R : Z) (s : string) (acc : option Z) : option Z :=
  match s with
  | EmptyString => acc
  | String c s' =>
      match digit_value c with
      | Some d =>
          if d <? R then parse_digits R s' (Some (default 0 acc * R + d))
          else acc
      | None => acc
      end
  end.

Definition strip_sign (s : string) : Z * string :=
  match s with
  | String c r =>
      if Ascii.eqb c "-"%char then (-1, r)
      else if Ascii.eqb c "+"%char then (1, r)
      else (1, s)
  | EmptyString => (1, s)
  end.

Definition strip_prefix (s : string) : Z * string :=
  match s with
  | String c0 (String c1 r) =>
      if Ascii.eqb c0 "0"%char
         && (Ascii.eqb c1 "x"%char || Ascii.eqb c1 "X"%char)
      then (16, r) else (10, s)
  | _ => (10, s)
  end.

(** The double nearest to the positive integer [m], ties to even: [m]
    itself below 2^53, otherwise its 53 leading bits rounded; [None] when
    the result does not fit a double (it is 2^1024 or more). *)
Definition round_magnitude (m : Z) : option Z :=
  if m <? 9007199254740992 then Some m
  else
    let e := Z.log2 m - 52 in
    let q := Z.shiftr m e in
    let r := Z.land m (Z.ones e) in
    let half := Z.shiftl 1 (e - 1) in
    let q' := if (half <? r) || ((r =? half) && Z.odd q) then q + 1 else q in
    let v := Z.shiftl q' e in
    if 2 ^ 1024 <=? v then None else Some v.

(** The Number for the sign and the mathematical integer [parseInt] has
    read. *)
Definition to_number (sign m : Z) : JSNumber :=
  if m =? 0 then (if sign <? 0 then JNegZero else JNum 0)
  else
    match round_magnitude m with
    | Some v => JNum (sign * v)
    | None => JInfinity (sign <? 0)
    end.

Definition parseInt (s : string) : JSNumber :=
  let '(sign, s1) := strip_sign (trim_start s) in
  let '(R, s2) := strip_prefix s1 in
  match parse_digits R s2 None with
  | None => JNaN
  | Some m => to_number sign m
  end.

(** ** Requests and the transport *)

(** An Express request, as far as the handlers read it: [req.query]. *)
Record HttpRequest := {
  query : gmap string string
}.

(** The upgrade request: the path and the [sessionId] parameter of its URL
    and the headers [handleConnection] copies into the socket data. *)
Record IncomingMessage := {
  url_pathname : string;
  url_sessionId : option string;
  socket_remoteAddress : option string;
  header_userAgent : option string;
  header_acceptLanguage : option string
}.

Inductive ReadyState := CONNECTING | OPEN | CLOSING | CLOSED.

#[global] Instance ReadyState_eq_dec : EqDecision ReadyState.
Proof. solve_decision. Defined.

(** What the [ws] transport shows when it is looked at. *)
Record WebSocket := {
  readyState : ReadyState;
  bufferedAmount : Z
}.

(** [RawData] of an inbound frame. *)
Inductive RawData :=
| RawBuffer (b : string)
| RawArrayBuffer (b : string)
| RawBuffers (bs : list string).

(** [s.substring(1)]. *)
Definition substring1 (s : string) : string :=
  match s with
  | String _ r => r
  | EmptyString => EmptyString
  end.

(** ** stats.ts: getStatistics *)

Section Statistics.
Context (toWorkspaceString : WorkspaceId → string).
Context (read_gauges : Gauges).

Definition session_stats (v : SessionRef) : SessionStats :=
  {| userId := getUser (session v);
     st_data := data (socket v);
     st_mins5 := mins5 (session v);
     st_total := total (session v);
     st_current := current (session v);
     st_upgrade := isUpgradeClient (session v) |}.

Definition workspace_stats (vv : Workspace) : WorkspaceStats :=
  {| st_sessions :=
       (λ kv, session_stats kv.2) <$> map_to_list (ws_sessions vv);
     st_name := workspaceName vv;
     wsId := toWorkspaceString (workspaceId vv);
     sessionsTotal := size (ws_sessions vv);
     upgrading := upgrade vv;
     st_closing := bool_decide (closing vv ≠ None) |}.

(** The loop [for (const [k, vv] of sessions.workspaces)
    activeSessions[k] = ...]. *)
Definition collect_workspaces (ws : gmap string Workspace)
  : gmap string WorkspaceStats :=
  map_fold (λ k vv acc, <[k := workspace_stats vv]> acc) ∅ ws.

Definition getStatistics (ctx : MeasureContext) (sm : SessionManager)
    (admin : bool) : StatisticsData :=
  {| data_metrics := ctx;
     statistics :=
       {| activeSessions :=
            if admin then collect_workspaces (workspaces sm) else ∅;
          totalClients := size (sessions sm);
          gauges := read_gauges |} |}.
End Statistics.

(** ** server_http.ts: startHttpServer *)

(** What the code of [startHttpServer] is given: the imports it calls and
    the parameters it reads.  [decodeToken], of
    [@hcengineering/server-token], gives [inl] when it throws;
    [serialized_length] is [smsg.length]; [LOGGING_ENABLED] is the flag of
    types.ts. *)
Record Server := {
  decodeToken : option string → Err + Token;
  UNAUTHORIZED : Status;
  toWorkspaceString : WorkspaceId → string;
  read_gauges : Gauges;
  serialized_length : Serialized → Z;
  LOGGING_ENABLED : bool;
  srv_sessions : SessionManager;
  srv_ctx : MeasureContext;
  srv_productId : string
}.

Section StartHttpServer.
Context (srv : Server).

Definition decode (token : option string) : M Token :=
  match decodeToken srv token with
  | inl err => throw err
  | inr payload => mret payload
  end.

(** [payload.extra?.admin === 'true']. *)
Definition is_admin (payload : Token) : bool :=
  bool_decide (extra payload ≫= admin = Some "true").

Definition process_exit {A} (c : Z) : M A := ([ProcessExit c], Exit c).

Definition when (b : bool) (m : M unit) : M unit :=
  if b then m else mret tt.

(** [app.get('/api/v1/statistics', ...)]. *)
Definition statistics_get (req : HttpRequest) : M unit :=
  try_catch
    (let token := query req !! "token" in
     payload ← decode token;
     let admin := is_admin payload in
     emit (ResWriteHead 200 (Some [("Content-Type", "application/json")]));;
     let json :=
       {| body_data := getStatistics (toWorkspaceString srv) (read_gauges srv)
                          (srv_ctx srv) (srv_sessions srv) admin;
          body_admin := admin |} in
     emit (ResEnd (Some json)))
    (λ err,
     emit (AnalyticsHandleError err);;
     emit (ConsoleError err);;
     emit (ResWriteHead 404 (Some []));;
     emit (ResEnd None)).

(** [app.put('/api/v1/manage', ...)].  [process.exit] does not return, so
    the statements after the [switch] run only when no case matched. *)
Definition manage_put (req : HttpRequest) : M unit :=
  try_catch
    (let token := query req !! "token" in
     payload ← decode token;
     if negb (is_admin payload) then
       emit (ResWriteHead 404 (Some []));;
       emit (ResEnd None)
     else
       let operation := query req !! "operation" in
       if bool_decide (operation = Some "maintenance") then
         let timeMinutes := parseInt (default "5" (query req !! "timeout")) in
         emit (ScheduleMaintenance timeMinutes);;
         emit (ResWriteHead 200 None);;
         emit (ResEnd None)
       else if bool_decide (operation = Some "wipe-statistics") then
         emit (WipeStatistics (srv_ctx srv));;
         emit (ResWriteHead 200 None);;
         emit (ResEnd None)
       else if bool_decide (operation = Some "force-close") then
         let wsId := query req !! "wsId" in
         emit (ForceClose wsId);;
         emit (ResWriteHead 200 None);;
         emit (ResEnd None)
       else
         (if bool_decide (operation = Some "reboot") then process_exit 0
          else mret tt);;
         emit (ResWriteHead 404 (Some []));;
         emit (ResEnd None))
    (λ err,
     emit (AnalyticsHandleError err);;
     emit (ConsoleError err);;
     emit (ResWriteHead 404 (Some []));;
     emit (ResEnd None)).

(** *** createWebsocketClientSocket *)

Definition createWebsocketClientSocket (new_id : string) (d : SocketData)
  : ConnectionSocket :=
  {| cs_id := new_id; isClosed := false; data := d |}.

(** [close]: marks the socket closed, then closes the transport. *)
Definition close (cs : ConnectionSocket) : M ConnectionSocket :=
  let cs' := {| cs_id := cs_id cs; isClosed := true; data := data cs |} in
  emit WsClose;;
  mret cs'.

(** The condition of the wait loop of [send]. *)
Definition must_wait (w : WebSocket) : bool :=
  bool_decide (bufferedAmount w > 128) && bool_decide (readyState w = OPEN).

(** The wait loop.  [ws k] is the transport as the [k]-th turn of the event
    loop after the call shows it; every [setImmediate] resumes the loop in
    the next turn.  [fuel] bounds the turns observed: when it runs out the
    call is still [Pending].  The result is the turn the loop left in. *)
Fixpoint await_drain (fuel : nat) (ws : nat → WebSocket) (k : nat) : M nat :=
  if must_wait (ws k) then
    match fuel with
    | O => ([], Pending)
    | S fuel' => await_drain fuel' ws (S k)
    end
  else mret k.

(** [ws.send(smsg, options, cb)] awaited: [write_error] is what the
    transport hands to the callback. *)
Definition ws_send_await (smsg : Serialized) (binary : bool)
    (compress : option bool) (write_error : option Err) : M unit :=
  emit (WsSend smsg binary compress);;
  match write_error with
  | Some err => throw err
  | None => mret tt
  end.

Definition send (fuel : nat) (ws : nat → WebSocket)
    (write_error : option Err) (cs : ConnectionSocket)
    (msg : Response) (binary compression : bool) : M Z :=
  if negb (bool_decide (readyState (ws O) = OPEN)) && negb (isClosed cs)
  then mret 0
  else
    let smsg := serialize msg binary in
    _ ← await_drain fuel ws O;
    emit (CtxMeasure "send-data" (serialized_length srv smsg));;
    ws_send_await smsg true (Some compression) write_error;;
    mret (serialized_length srv smsg).

(** *** handleConnection *)

Definition socket_data (request : IncomingMessage) (token : Token)
  : SocketData :=
  {| remoteAddress := default "" (socket_remoteAddress request);
     userAgent := default "" (header_userAgent request);
     language := default "" (header_acceptLanguage request);
     data_email := email token;
     data_mode := extra token ≫= mode;
     data_model := extra token ≫= model |}.

Definition handleConnection (new_id : string) (request : IncomingMessage)
    (token : Token) (rawToken : string) (sessionId : option string)
  : M ConnectionSocket :=
  let cs := createWebsocketClientSocket new_id (socket_data request token) in
  emit (AddSession token rawToken (srv_productId srv) sessionId);;
  mret cs.

(** ['upgrade' in s], ['error' in s] and [(s as any).upgradeInfo]. *)
Definition has_upgrade (s : AddSessionResponse) : bool :=
  match s with AddSessionUpgrade _ => true | _ => false end.

Definition has_error (s : AddSessionResponse) : bool :=
  match s with AddSessionError _ => true | _ => false end.

Definition upgradeInfo_of (s : AddSessionResponse) : JSValue :=
  match s with
  | AddSessionUpgrade (Some info) => info
  | _ => JSUndefined
  end.

Definition upgrading_response (s : AddSessionResponse) : Response :=
  {| id := Some (IdNum (-1));
     result := Some (JSObject [Field "state" (JSString "upgrading");
                               Field "stats" (upgradeInfo_of s)]);
     error := None |}.

(** The continuation [webSocketData.session.then((s) => ...)]. *)
Definition session_resolved (fuel : nat) (ws : nat → WebSocket)
    (write_error : option Err) (cs : ConnectionSocket)
    (s : AddSessionResponse) : M ConnectionSocket :=
  if has_upgrade s || has_error s then
    when (has_error s) (emit (CtxError "error"));;
    _ ← send fuel ws write_error cs (upgrading_response s) false false;
    close cs
  else mret cs.

(** *** The upgrade handler *)

(** What a connection is after the upgrade: wired to a session by
    [handleConnection], or refused, with the handler that answers every
    message with [UNAUTHORIZED]. *)
Inductive Connection :=
| Accepted (cs : ConnectionSocket) (payload : Token) (rawToken : string)
| Refused.

Definition unauthorized_hello : Response :=
  {| id := Some (IdNum (-1));
     result := Some (JSString "hello");
     error := Some (UNAUTHORIZED srv) |}.

Definition unauthorized_reply : Response :=
  {| id := None; result := None; error := Some (UNAUTHORIZED srv) |}.

(** [httpServer.on('upgrade', ...)]. *)
Definition on_upgrade (new_id : string) (request : IncomingMessage)
  : M Connection :=
  let token := substring1 (url_pathname request) in
  try_catch
    (payload ← decode (Some token);
     let sessionId := url_sessionId request in
     (if negb (bool_decide (productId (workspace payload) = srv_productId srv))
      then
        when (LOGGING_ENABLED srv) (emit (CtxError "invalid product"));;
        throw "Invalid workspace product"
      else mret tt);;
     emit WssHandleUpgrade;;
     cs ← handleConnection new_id request payload token sessionId;
     mret (Accepted cs payload token))
    (λ err,
     emit (AnalyticsHandleError err);;
     when (LOGGING_ENABLED srv) (emit (CtxError "invalid token"));;
     emit WssHandleUpgrade;;
     emit (WsSend (serialize unauthorized_hello false) false None);;
     emit WsSetOnMessage;;
     mret Refused).

(** An inbound frame: the [ws.onmessage] installed on a refused
    connection, or the ['message'] listener of [handleConnection]. *)
Definition on_message (c : Connection) (msg : RawData) : M unit :=
  match c with
  | Refused => emit (WsSend (serialize unauthorized_reply false) false None)
  | Accepted _ _ _ =>
      match msg with
      | RawBuffer b => emit (DoSessionOp [b])
      | RawBuffers bs => emit (DoSessionOp bs)
      | RawArrayBuffer _ => mret tt
      end
  end.

(** The effects of a connection from its upgrade request through the
    frames the client then sends. *)
Definition connection_trace (new_id : string) (request : IncomingMessage)
    (msgs : list RawData) : list Effect :=
  let '(t, o) := on_upgrade new_id request in
  match o with
  | Ret c => t ++ concat ((λ msg, trace (on_message c msg)) <$> msgs)
  | _ => t
  end.
End StartHttpServer.

(** ** stats.ts: wipeStatistics *)

(** The state [wipeStatistics] runs in front of: the store of metric objects
    and the registries of the session manager. *)
Record ServerState := {
  store : gmap loc MetricsNode;
  manager : SessionManager
}.

(** How a run of a loop that is given [fuel] iterations ends: it finished,
    it was still running when the fuel ran out (a store with a cycle keeps
    the work list of [wipeStatistics] busy for ever), or it met a location
    that the store does not hold, which no JavaScript reference does. *)
Inductive Run (A : Type) :=
| Finished (a : A)
| OutOfFuel
| Dangling.
Arguments Finished {A} a.
Arguments OutOfFuel {A}.
Arguments Dangling {A}.

(** The three assignments of [cleanMetrics]. *)
Definition reset (n : MetricsNode) : MetricsNode :=
  {| operations := 0; value := 0; topResult := None; sub := sub n |}.

(** What [cleanMetrics] pushes for an object: the values of its
    [measurements], then the values of every value of its [params]. *)
Definition children_of (n : MetricsNode) : list loc :=
  match sub n with
  | Some c => (measurements c).*2 ++ concat ((λ p, p.2.*2) <$> params c)
  | None => []
  end.

(** [cleanMetrics(m)] on the store and the work list [toClean]. *)
Definition cleanMetrics (h : gmap loc MetricsNode) (toClean : list loc)
    (m : loc) : option (gmap loc MetricsNode * list loc) :=
  n ← h !! m;
  Some (<[m := reset n]> h, toClean ++ children_of n).

(** [while (toClean.length > 0) { v = toClean.shift(); cleanMetrics(v) }]. *)
Fixpoint wipe_loop (fuel : nat) (h : gmap loc MetricsNode)
    (toClean : list loc) : Run (gmap loc MetricsNode) :=
  match toClean with
  | [] => Finished h
  | v :: rest =>
      match fuel with
      | O => OutOfFuel
      | S fuel' =>
          match cleanMetrics h rest v with
          | Some (h', toClean') => wipe_loop fuel' h' toClean'
          | None => Dangling
          end
      end
  end.

Definition wipeStatistics (fuel : nat) (ctx : MeasureContext)
    (st : ServerState) : Run ServerState :=
  match ctx with
  | MeasureMetricsContext metrics =>
      match wipe_loop fuel (store st) [metrics] with
      | Finished h' => Finished {| store := h'; manager := manager st |}
      | OutOfFuel => OutOfFuel
      | Dangling => Dangling
      end
  | OtherMeasureContext => Finished st
  end.

(** *** Reachability in the store *)

(** The reference structure of a store: the children of every object. *)
Definition shape (h : gmap loc MetricsNode) : gmap loc (list loc) :=
  children_of <$> h.

(** [reach sh u l]: [l] is [u] or is found below it. *)
Inductive reach (sh : gmap loc (list loc)) : loc → loc → Prop :=
| reach_here l : reach sh l l
| reach_child u cs c l :
    sh !! u = Some cs → c ∈ cs → reach sh c l → reach sh u l.

(** [tree_size sh l n]: the objects below [l] unfold into a finite tree of
    [n] nodes; no reference dangles and none leads back to an ancestor. *)
Inductive tree_size (sh : gmap loc (list loc)) : loc → nat → Prop :=
| tree_size_node l cs sizes :
    sh !! l = Some cs →
    Forall2 (tree_size sh) cs sizes →
    tree_size sh l (S (sum_list sizes)).




(** ** Observations on traces *)

(** The status codes written to the HTTP response. *)
Definition status_codes (t : list Effect) : list Z :=
  omap (λ e, match e with ResWriteHead c _ => Some c | _ => None end) t.

(** The bodies the HTTP response was ended with. *)
Definition bodies (t : list Effect) : list (option StatisticsBody) :=
  omap (λ e, match e with ResEnd b => Some b | _ => None end) t.

(** The administrative operations of the manage endpoint. *)
Definition is_operation (e : Effect) : bool :=
  match e with
  | ScheduleMaintenance _ | WipeStatistics _ | ForceClose _
  | ProcessExit _ => true
  | _ => false
  end.

Definition operations_of (t : list Effect) : list Effect :=
  List.filter is_operation t.

(** The frames written to the transport, with their framing flag. *)
Definition frames (t : list Effect) : list (Serialized * bool) :=
  omap (λ e, match e with WsSend smsg b _ => Some (smsg, b) | _ => None end) t.

Definition is_add_session (e : Effect) : bool :=
  match e with AddSession _ _ _ _ => true | _ => false end.

Definition is_close (e : Effect) : bool :=
  match e with WsClose => true | _ => false end.

(** The write [send] performs once the loop is left, and how it ends. *)
Definition written (srv : Server) (msg : Response)
    (binary compression : bool) (write_error : option Err) : M Z :=
  ([CtxMeasure "send-data" (serialized_length srv (serialize msg binary));
    WsSend (serialize msg binary) true (Some compression)],
   match write_error with
   | Some err => Throw err
   | None => Ret (serialized_length srv (serialize msg binary))
   end).

(** Every frame of [t] is framed as the [binary] flag says. *)
Definition framing_follows_flag (t : list Effect) (binary : bool) : Prop :=
  ∀ smsg b, (smsg, b) ∈ frames t → b = binary.

(** The outcomes of [addSession] that refuse the session, with the [stats]
    the front-end then reads from them ([upgradeInfo], which only an upgrade
    can carry) and the line it logs (for an error only). *)
Inductive refused_session : AddSessionResponse → JSValue → list Effect → Prop :=
| refused_upgrade info :
    refused_session (AddSessionUpgrade info) (default JSUndefined info) []
| refused_error err :
    refused_session (AddSessionError err) JSUndefined [CtxError "error"].

(** The response [{id: -1, result: {state: 'upgrading', stats}}]. *)
Definition upgrading_reply (stats : JSValue) : Response :=
  {| id := Some (IdNum (-1));
     result := Some (JSObject [Field "state" (JSString "upgrading");
                               Field "stats" stats]);
     error := None |}.

(** Exactly one frame was written and the transport was closed. *)
Definition one_frame_then_closed (t : list Effect) : Prop :=
  length (frames t) = 1%nat ∧ WsClose ∈ t.

(** What the [catch] block of the upgrade handler does with [err]. *)
Definition refusal (srv : Server) (err : Err) : list Effect :=
  [AnalyticsHandleError err]
  ++ (if LOGGING_ENABLED srv then [CtxError "invalid token"] else [])
  ++ [WssHandleUpgrade;
      WsSend (serialize (unauthorized_hello srv) false) false None;
      WsSetOnMessage].

(** The answer of a refused connection to an inbound frame. *)
Definition reply (srv : Server) : Effect :=
  WsSend (serialize (unauthorized_reply srv) false) false None.

(** The token of a request decodes and carries [admin = 'true']. *)
Definition authorised (srv : Server) (req : HttpRequest) : bool :=
  match decodeToken srv (query req !! "token") with
  | inr payload => bool_decide (extra payload ≫= admin = Some "true")
  | inl _ => false
  end.

(** The string of the decimal digits [ds], most significant first, and the
    number it denotes. *)
Definition digit_char (d : nat) : ascii := ascii_of_nat (48 + d).

Fixpoint decimal (ds : list nat) : string :=
  match ds with
  | [] => EmptyString
  | d :: ds' => String (digit_char d) (decimal ds')
  end.

Definition decimal_value (ds : list nat) : Z :=
  fold_left (λ acc d, acc * 10 + Z.of_nat d) ds 0.

(** ** Sample data *)

Module Sample.
Definition unauthorized : Status :=
  {| severity := "ERROR"; code := "platform:status:Unauthorized" |}.

Definition admin_token : Token :=
  {| email := "admin@example.com";
     workspace := {| name := "w1"; productId := "" |};
     extra := Some {| admin := Some "true"; mode := None; model := None |} |}.

Definition user_token : Token :=
  {| email := "user@example.com";
     workspace := {| name := "w1"; productId := "" |};
     extra := None |}.

Definition foreign_token : Token :=
  {| email := "user@example.com";
     workspace := {| name := "w1"; productId := "other" |};
     extra := None |}.

Definition tokens (token : option string) : Err + Token :=
  match token with
  | Some t =>
      if String.eqb t "admin" then inr admin_token
      else if String.eqb t "user" then inr user_token
      else if String.eqb t "foreign" then inr foreign_token
      else inl "jwt malformed"
  | None => inl "jwt must be provided"
  end.

Definition workspace_string (w : WorkspaceId) : string :=
  name w +:+ "@" +:+ productId w.

Definition the_gauges : Gauges :=
  {| memoryUsed := 10; memoryTotal := 20; cpuUsage := 1;
     freeMem := 100; totalMem := 200 |}.

Definition length_42 (s : Serialized) : Z := 42.

Definition zero : StatisticsElement := {| se_find := 0; se_tx := 0 |}.

Definition a_session : Session :=
  {| createTime := 0; getUser := "user@example.com"; sessionId := "s1";
     sessionInstanceId := None; workspaceClosed := None; requests := ∅;
     binaryMode := false; useCompression := false; useBroadcast := true;
     total := {| se_find := 3; se_tx := 1 |}; current := zero; mins5 := zero;
     measureCtx := None; lastRequest := 0; isUpgradeClient := false;
     getMode := "" |}.

Definition a_socket_data : SocketData :=
  {| remoteAddress := "10.0.0.1"; userAgent := ""; language := "";
     data_email := "user@example.com"; data_mode := None;
     data_model := None |}.

Definition a_socket : ConnectionSocket :=
  {| cs_id := "c1"; isClosed := false; data := a_socket_data |}.

Definition closed_socket : ConnectionSocket :=
  {| cs_id := "c1"; isClosed := true; data := a_socket_data |}.

Definition a_ref : SessionRef :=
  {| session := a_session; socket := a_socket |}.

Definition a_workspace : Workspace :=
  {| context := MeasureMetricsContext 2%positive; ws_id := "w1";
     pipeline := 1%positive;
     ws_sessions := {[ "s1" := a_ref ]}; upgrade := false; backup := false;
     closing := None; softShutdown := 0;
     workspaceId := {| name := "w1"; productId := "" |};
     workspaceName := "w1" |}.

Definition a_manager : SessionManager :=
  {| workspaces := {[ "w1@" := a_workspace ]};
     sessions := {[ "c1" := a_ref ]} |}.

(** A root [Metrics] with one measurement (itself a [Metrics] without
    children) and one parameter value (a [MetricsData]). *)
Definition a_store : gmap loc MetricsNode :=
  {[ 1%positive :=
       {| operations := 7; value := 120; topResult := Some [50];
          sub := Some {| measurements := [("find", 2%positive)];
                         params := [("user", [("a", 3%positive)])] |} |};
     2%positive :=
       {| operations := 4; value := 80; topResult := None;
          sub := Some {| measurements := []; params := [] |} |};
     3%positive :=
       {| operations := 3; value := 40; topResult := None; sub := None |} ]}.

Definition a_state : ServerState :=
  {| store := a_store; manager := a_manager |}.

Definition server : Server :=
  {| decodeToken := tokens; UNAUTHORIZED := unauthorized;
     toWorkspaceString := workspace_string; read_gauges := the_gauges;
     serialized_length := length_42; LOGGING_ENABLED := true;
     srv_sessions := a_manager; srv_ctx := MeasureMetricsContext 1%positive;
     srv_productId := "" |}.

Definition request (kvs : list (string * string)) : HttpRequest :=
  {| query := list_to_map kvs |}.

Definition upgrade_request (path : string) : IncomingMessage :=
  {| url_pathname := path; url_sessionId := None;
     socket_remoteAddress := Some "10.0.0.1"; header_userAgent := None;
     header_acceptLanguage := None |}.

Definition open_ws (buffered : Z) : WebSocket :=
  {| readyState := OPEN; bufferedAmount := buffered |}.

Definition closed_ws : WebSocket :=
  {| readyState := CLOSED; bufferedAmount := 0 |}.

(** A transport that stays open with 4096 bytes buffered for three turns
    and has drained to 128 bytes at the fourth. *)
Definition draining (k : nat) : WebSocket :=
  if (k <? 3)%nat then open_ws 4096 else open_ws 128.

(** A transport that is open and never drains. *)
Definition stalled (k : nat) : WebSocket := open_ws 4096.

Definition pong : Response :=
  {| id := Some (IdNum 1); result := Some (JSString "pong"); error := None |}.

Definition bad_upgrade : list Effect :=
  connection_trace server "c1" (upgrade_request "/garbage")
    [RawBuffer "ping"].
End Sample.


(** ** Further observations on traces *)

(** The bytes recorded under [send-data]. *)
Definition measured (t : list Effect) : Z :=
  foldr (λ e acc,
           match e with
           | CtxMeasure name v => if String.eqb name "send-data" then v + acc
                                  else acc
           | _ => acc
           end) 0 t.

Definition is_handshake (e : Effect) : bool :=
  match e with WssHandleUpgrade => true | _ => false end.

Definition is_decimal_digit (c : ascii) : bool :=
  let n := Z.of_nat (nat_of_ascii c) in (48 <=? n) && (n <=? 57).

(** ** account-service/src/index.ts *)

(** [s.slice(n)] for a non-negative [n]. *)
Fixpoint slice (n : nat) (s : string) : string :=
  match n, s with
  | O, _ => s
  | S n', String _ r => slice n' r
  | S _, EmptyString => EmptyString
  end.

(** [extractToken]: [header.authorization?.slice(7) ?? undefined]; the
    header is a string or absent, so the [catch] is never entered. *)
Definition extractToken (authorization : option string) : option string :=
  slice 7 <$> authorization.

(** What [serveAccount] does to the outside while it starts. *)
Inductive AccountEffect :=
| ConsoleLog (msg : string)
| AddStringsLoader
| SetMetadata (key : string) (v : option string)
| MongoConnect (uri : string)
| Listen (port : JSNumber).

(** What [listen] accepts as a port: an integer from 0 to 65535. *)
Definition legal_port (p : JSNumber) : bool :=
  match p with
  | JNum z => (0 <=? z) && (z <=? 65535)
  | JNegZero => true
  | JNaN | JInfinity _ => false
  end.

(** [serveAccount], from the reading of the environment through the
    metadata to the connection to the database and the listener; [env] is
    [process.env], and [process.exit(1)] ends the run with [Exit 1].
    [app.listen] throws the error of code [ERR_SOCKET_BAD_PORT] for a port
    that is not legal, and nothing catches it. *)
Definition serveAccount (env : gmap string string)
  : list AccountEffect * Outcome unit :=
  let ACCOUNT_PORT := parseInt (default "3000" (env !! "ACCOUNT_PORT")) in
  match env !! "MONGO_URL" with
  | None => ([ConsoleLog "Please provide mongodb url"], Exit 1)
  | Some dbUri =>
      match env !! "TRANSACTOR_URL" with
      | None => ([ConsoleLog "Please provide transactor url"], Exit 1)
      | Some transactorUri =>
          let endpointUri := default transactorUri (env !! "ENDPOINT_URL") in
          match env !! "SERVER_SECRET" with
          | None => ([ConsoleLog "Please provide server secret"], Exit 1)
          | Some serverSecret =>
              let lang := default "en" (env !! "LANGUAGE") in
              ([AddStringsLoader;
                SetMetadata "locale" (Some lang);
                SetMetadata "ProductName" (env !! "PRODUCT_NAME");
                SetMetadata "SES_URL" (env !! "SES_URL");
                SetMetadata "FrontURL" (env !! "FRONT_URL");
                SetMetadata "Secret" (Some serverSecret)]
               ++ match env !! "INIT_WORKSPACE" with
                  | Some initWS => [SetMetadata "InitWorkspace" (Some initWS)]
                  | None => []
                  end
               ++ [SetMetadata "Endpoint" (Some endpointUri);
                   SetMetadata "Transactor" (Some transactorUri);
                   SetMetadata "UserAgent" (Some "AccountService");
                   MongoConnect dbUri;
                   Listen ACCOUNT_PORT],
               if legal_port ACCOUNT_PORT then Ret tt
               else Throw "ERR_SOCKET_BAD_PORT")
          end
      end
  end.

Definition is_set_metadata (e : AccountEffect) : bool :=
  match e with SetMetadata _ _ => true | _ => false end.

Definition is_connect (e : AccountEffect) : bool :=
  match e with MongoConnect _ => true | _ => false end.

(** The value a metadata key was last set to. *)
Definition metadata_of (key : string) (t : list AccountEffect)
  : option (option string) :=
  last (omap (λ e, match e with
                   | SetMetadata k v => if String.eqb k key then Some v
                                        else None
                   | _ => None
                   end) t).

(** The body of an rpc request, as far as the handler reads it. *)
Record RpcRequest := {
  rpc_id : option ReqId;
  rpc_method : option string
}.

Inductive RpcBody :=
| UnknownMethodBody (rid : option ReqId) (method : option string)
| ResultBody (r : JSValue).

Inductive RpcEffect :=
| SetBody (b : RpcBody)
| ClientDb
| InvokeMethod (method : string) (request : RpcRequest)
    (token : option string)
| UpdateResponseStatistics (r : JSValue).

(** An account method: what it resolves to, or the error it rejects
    with. *)
Definition AccountMethod : Type := RpcRequest → option string → Err + JSValue.

(** [router.post('rpc', '/', ...)].  [methods] is the lookup
    [methods[request.method]], where an absent [method] reads the key
    ["undefined"]; [connect_error] is what awaiting the database client
    rejects with, if it does; [worker] tells whether the upgrade worker is
    set.  Calling a [method] that is [undefined] throws a [TypeError]. *)
Definition rpc_post (methods : string → option AccountMethod)
    (connect_error : option Err) (worker : bool)
    (authorization : option string) (request : RpcRequest)
  : list RpcEffect * Outcome unit :=
  let token := extractToken authorization in
  let key := default "undefined" (rpc_method request) in
  let method := methods key in
  let unknown :=
    match method with
    | None => [SetBody (UnknownMethodBody (rpc_id request)
                          (rpc_method request))]
    | Some _ => []
    end in
  match connect_error with
  | Some err => (unknown, Throw err)
  | None =>
      match method with
      | None => (unknown ++ [ClientDb], Throw "method is not a function")
      | Some m =>
          match m request token with
          | inl err =>
              (unknown ++ [ClientDb; InvokeMethod key request token],
               Throw err)
          | inr r =>
              (unknown ++ [ClientDb; InvokeMethod key request token]
               ++ (if worker then [UpdateResponseStatistics r] else [])
               ++ [SetBody (ResultBody r)],
               Ret tt)
          end
      end
  end.

Definition is_invoke (e : RpcEffect) : bool :=
  match e with InvokeMethod _ _ _ => true | _ => false end.

(** The body the handler leaves in [ctx.body]. *)
Definition final_body (t : list RpcEffect) : option RpcBody :=
  last (omap (λ e, match e with SetBody b => Some b | _ => None end) t).

(** ** server_http.ts: the function startHttpServer returns *)

Inductive ShutdownEffect :=
| CloseWorkspaces
| WssClose
| HttpServerClose.

(** The returned [async () => ...]: it awaits [sessions.closeWorkspaces],
    then the close of the WebSocket server, then the close of the HTTP
    server.  The arguments are the error each step fails with, if it does: a
    callback that is given an error rejects the awaited promise (the
    [resolve()] that follows a [reject] has no effect). *)
Definition shutdown (workspaces_error wss_error http_error : option Err)
  : list ShutdownEffect * Outcome unit :=
  match workspaces_error with
  | Some err => ([CloseWorkspaces], Throw err)
  | None =>
      match wss_error with
      | Some err => ([CloseWorkspaces; WssClose], Throw err)
      | None =>
          match http_error with
          | Some err => ([CloseWorkspaces; WssClose; HttpServerClose], Throw err)
          | None => ([CloseWorkspaces; WssClose; HttpServerClose], Ret tt)
          end
      end
  end.

(** ** types.ts: disableLogging *)

(** The server with [LOGGING_ENABLED] set to [b]; [disableLogging()] sets
    it to [false]. *)
Definition set_logging (b : bool) (srv : Server) : Server :=
  {| decodeToken := decodeToken srv;
     UNAUTHORIZED := UNAUTHORIZED srv;
     toWorkspaceString := toWorkspaceString srv;
     read_gauges := read_gauges srv;
     serialized_length := serialized_length srv;
     LOGGING_ENABLED := b;
     srv_sessions := srv_sessions srv;
     srv_ctx := srv_ctx srv;
     srv_productId := srv_productId srv |}.

Definition disableLogging (srv : Server) : Server := set_logging false srv.

Definition is_ctx_error (e : Effect) : bool :=
  match e with CtxError _ => true | _ => false end.

(** The server over another registry of workspaces, with the same flat
    index of sessions. *)
Definition with_workspaces (ws : gmap string Workspace) (srv : Server)
  : Server :=
  {| decodeToken := decodeToken srv;
     UNAUTHORIZED := UNAUTHORIZED srv;
     toWorkspaceString := toWorkspaceString srv;
     read_gauges := read_gauges srv;
     serialized_length := serialized_length srv;
     LOGGING_ENABLED := LOGGING_ENABLED srv;
     srv_sessions := {| workspaces := ws;
                        sessions := sessions (srv_sessions srv) |};
     srv_ctx := srv_ctx srv;
     srv_productId := srv_productId srv |}.

(** ** Further sample data *)

Module Fixture.
(** A store whose root lists itself among its measurements. *)
Definition looping_store : gmap loc MetricsNode :=
  {[ 1%positive :=
       {| operations := 1; value := 1; topResult := None;
          sub := Some {| measurements := [("self", 1%positive)];
                         params := [] |} |} ]}.

Definition looping_state : ServerState :=
  {| store := looping_store; manager := Sample.a_manager |}.

Definition env : gmap string string :=
  {[ "MONGO_URL" := "mongodb://db"; "TRANSACTOR_URL" := "ws://transactor";
     "SERVER_SECRET" := "secret" ]}.

Definition env_no_secret : gmap string string :=
  {[ "MONGO_URL" := "mongodb://db"; "TRANSACTOR_URL" := "ws://transactor" ]}.

Definition login : AccountMethod :=
  λ request token, inr (JSString "logged in").

Definition methods (key : string) : option AccountMethod :=
  if String.eqb key "login" then Some login else None.

Definition login_request : RpcRequest :=
  {| rpc_id := Some (IdNum 7); rpc_method := Some "login" |}.

Definition unknown_request : RpcRequest :=
  {| rpc_id := Some (IdNum 8); rpc_method := Some "logout" |}.

End Fixture.

(** * Properties *)

(** ** The monad *)

Lemma M_bind_ret {A B} (a : A) (f : A → M B) : mret a ≫= f = f a.
Proof. unfold mret, mbind, M_ret, M_bind. by destruct (f a). Qed.

Lemma M_bind_emit {B} (e : Effect) (f : unit → M B) :
  emit e ≫= f = (e :: trace (f tt), outcome (f tt)).
Proof. unfold emit, mbind, M_bind. by destruct (f tt). Qed.

Lemma M_bind_throw {A B} (err : Err) (f : A → M B) :
  throw err ≫= f = throw err.
Proof. reflexivity. Qed.

Lemma M_bind_trace {A B} (m : M A) (f : A → M B) :
  trace (m ≫= f)
  = trace m ++ match outcome m with Ret a => trace (f a) | _ => [] end.
Proof.
  destruct m as [t [a| | |]]; cbn; rewrite ?app_nil_r; try done.
  by destruct (f a).
Qed.

(** ** parseInt on decimal numerals *)

Lemma digit_value_digit_char d :
  (d < 10)%nat → digit_value (digit_char d) = Some (Z.of_nat d).
Proof.
  intros Hd. do 10 (destruct d as [|d]; [reflexivity|]). lia.
Qed.

Lemma digit_char_plain d :
  (d < 10)%nat →
  is_white_space (digit_char d) = false
  ∧ Ascii.eqb (digit_char d) "-" = false
  ∧ Ascii.eqb (digit_char d) "+" = false
  ∧ Ascii.eqb (digit_char d) "x" = false
  ∧ Ascii.eqb (digit_char d) "X" = false.
Proof.
  intros Hd. do 10 (destruct d as [|d]; [repeat split; reflexivity|]). lia.
Qed.

Lemma digit_char_code d :
  (d < 10)%nat → byte_code (digit_char d) = 48 + Z.of_nat d.
Proof.
  intros Hd. do 10 (destruct d as [|d]; [reflexivity|]). lia.
Qed.

(** A byte below 128 starts no white space of several bytes. *)
Lemma trim_start_ascii c r :
  byte_code c < 128 → is_white_space c = false →
  trim_start (String c r) = String c r.
Proof.
  intros Hc Hw. cbn [trim_start]. rewrite Hw.
  destruct r as [|b r]; [done|].
  assert (is_white_space2 c b = false) as ->.
  { unfold is_white_space2. rewrite (proj2 (Z.eqb_neq _ 194)) by lia. done. }
  destruct r as [|c' r]; [done|].
  assert (is_white_space3 c b c' = false) as ->; [|done].
  unfold is_white_space3.
  rewrite (proj2 (Z.eqb_neq _ 225)), (proj2 (Z.eqb_neq _ 226)),
    (proj2 (Z.eqb_neq _ 227)), (proj2 (Z.eqb_neq _ 239)) by lia. done.
Qed.

Lemma parse_digits_decimal ds acc :
  Forall (λ d, (d < 10)%nat) ds →
  parse_digits 10 (decimal ds) (Some acc)
  = Some (fold_left (λ a d, a * 10 + Z.of_nat d) ds acc).
Proof.
  intros Hds. revert acc. induction Hds as [|d ds Hd _ IH]; intros acc.
  - reflexivity.
  - cbn [decimal parse_digits fold_left].
    rewrite (digit_value_digit_char d Hd).
    assert ((Z.of_nat d <? 10) = true) as -> by (apply Z.ltb_lt; lia).
    cbn [default]. apply IH.
Qed.

Lemma strip_prefix_decimal ds :
  Forall (λ d, (d < 10)%nat) ds →
  strip_prefix (decimal ds) = (10, decimal ds).
Proof.
  intros Hds. unfold strip_prefix.
  destruct Hds as [|d ds Hd Hds]; [done|]. cbn [decimal].
  destruct Hds as [|d' ds' Hd' _]; [done|]. cbn [decimal].
  destruct (digit_char_plain d' Hd') as (_ & _ & _ & -> & ->).
  by rewrite andb_false_r.
Qed.

(** The digits of a numeral are read to the number it denotes. *)
Lemma parse_numeral ds :
  ds ≠ [] → Forall (λ d, (d < 10)%nat) ds →
  parse_digits 10 (decimal ds) None = Some (decimal_value ds).
Proof.
  intros Hne Hds. destruct Hds as [|d ds Hd Hds]; [done|].
  cbn [decimal parse_digits]. rewrite (digit_value_digit_char d Hd).
  assert ((Z.of_nat d <? 10) = true) as -> by (apply Z.ltb_lt; lia).
  cbn [default]. rewrite (parse_digits_decimal ds _ Hds).
  unfold decimal_value. cbn [fold_left]. f_equal; lia.
Qed.

Lemma fold_digits_nonneg ds acc :
  0 <= acc → 0 <= fold_left (λ a d, a * 10 + Z.of_nat d) ds acc.
Proof.
  revert acc. induction ds as [|d ds IH]; intros acc Hacc; [done|].
  cbn [fold_left]. apply IH. lia.
Qed.

Lemma decimal_value_nonneg ds : 0 <= decimal_value ds.
Proof. by apply fold_digits_nonneg. Qed.

(** An integer up to 2^53 is a double as it stands. *)
Lemma round_magnitude_exact m :
  m <= 9007199254740992 → round_magnitude m = Some m.
Proof.
  intros Hm. unfold round_magnitude.
  destruct (m <? 9007199254740992) eqn:Hlt; [done|].
  apply Z.ltb_ge in Hlt. assert (m = 9007199254740992) as -> by lia.
  vm_compute. reflexivity.
Qed.

Lemma to_number_exact sign m :
  0 <= m <= 9007199254740992 → (sign = 1 ∨ (sign = -1 ∧ 0 < m)) →
  to_number sign m = JNum (sign * m).
Proof.
  intros Hm Hsign. unfold to_number.
  rewrite (round_magnitude_exact m) by lia.
  destruct (m =? 0) eqn:H0; [|done].
  apply Z.eqb_eq in H0. subst m. destruct Hsign as [->|[_ ?]]; [done|lia].
Qed.

(** The start of a numeral is neither white space nor a sign. *)
Lemma numeral_start d ds :
  (d < 10)%nat →
  trim_start (decimal (d :: ds)) = decimal (d :: ds)
  ∧ strip_sign (decimal (d :: ds)) = (1, decimal (d :: ds)).
Proof.
  intros Hd. destruct (digit_char_plain d Hd) as (Hw & Hm & Hp & _).
  cbn [decimal]. split.
  - apply trim_start_ascii; [|done]. rewrite (digit_char_code d Hd). lia.
  - unfold strip_sign. by rewrite Hm, Hp.
Qed.

(** A decimal numeral of any length is read to the double nearest to the
    number it denotes. *)
Lemma parseInt_numeral ds :
  ds ≠ [] → Forall (λ d, (d < 10)%nat) ds →
  parseInt (decimal ds) = to_number 1 (decimal_value ds).
Proof.
  intros Hne Hds. unfold parseInt.
  destruct ds as [|d ds]; [done|].
  destruct (numeral_start d ds) as [-> ->]; [by inversion Hds|].
  by rewrite (strip_prefix_decimal _ Hds), (parse_numeral _ Hne Hds).
Qed.

(** A decimal numeral up to 2^53 is read to the number it denotes. *)
Lemma parseInt_decimal ds :
  ds ≠ [] → Forall (λ d, (d < 10)%nat) ds →
  decimal_value ds <= 9007199254740992 →
  parseInt (decimal ds) = JNum (decimal_value ds).
Proof.
  intros Hne Hds Hmax. rewrite (parseInt_numeral ds Hne Hds).
  pose proof (decimal_value_nonneg ds).
  rewrite to_number_exact by (lia || auto). f_equal; lia.
Qed.

(** A sign before the numeral is read: [+] keeps and [-] negates it. *)
Lemma parseInt_signed ds :
  ds ≠ [] → Forall (λ d, (d < 10)%nat) ds →
  decimal_value ds <= 9007199254740992 →
  parseInt (String "+" (decimal ds)) = JNum (decimal_value ds)
  ∧ (0 < decimal_value ds →
     parseInt (String "-" (decimal ds)) = JNum (- decimal_value ds))
  ∧ (decimal_value ds = 0 →
     parseInt (String "-" (decimal ds)) = JNegZero).
Proof.
  intros Hne Hds Hmax. pose proof (decimal_value_nonneg ds).
  unfold parseInt.
  rewrite !trim_start_ascii by (reflexivity || (vm_compute; reflexivity)).
  change (strip_sign (String "+" (decimal ds))) with (1, decimal ds).
  change (strip_sign (String "-" (decimal ds))) with (-1, decimal ds).
  cbv iota beta.
  rewrite (strip_prefix_decimal _ Hds), (parse_numeral _ Hne Hds).
  split; [|split].
  - rewrite to_number_exact by (lia || auto). f_equal; lia.
  - intros Hpos. rewrite to_number_exact by (lia || auto). f_equal; lia.
  - intros ->. reflexivity.
Qed.

Lemma digit_value_not_decimal c :
  is_decimal_digit c = false →
  match digit_value c with Some d => 10 <= d | None => True end.
Proof.
  unfold is_decimal_digit, digit_value. cbv zeta. intros ->.
  destruct ((97 <=? Z.of_nat (nat_of_ascii c))
            && (Z.of_nat (nat_of_ascii c) <=? 122)) eqn:Hlow.
  { apply andb_true_iff in Hlow as [Hlow _]. apply Z.leb_le in Hlow. lia. }
  destruct ((65 <=? Z.of_nat (nat_of_ascii c))
            && (Z.of_nat (nat_of_ascii c) <=? 90)) eqn:Hup; [|done].
  apply andb_true_iff in Hup as [Hup _]. apply Z.leb_le in Hup. lia.
Qed.

(** A string that begins with a byte below 128 that is neither white space,
    a sign nor a decimal digit is not a number. *)
Lemma parseInt_not_a_number c r :
  byte_code c < 128 → is_white_space c = false →
  c ≠ "-"%char → c ≠ "+"%char → is_decimal_digit c = false →
  parseInt (String c r) = JNaN.
Proof.
  intros Hc Hw Hm Hp Hd. unfold parseInt.
  rewrite (trim_start_ascii c r Hc Hw). unfold strip_sign.
  rewrite (proj2 (Ascii.eqb_neq c "-") Hm), (proj2 (Ascii.eqb_neq c "+") Hp).
  assert (Ascii.eqb c "0" = false) as H0.
  { apply Ascii.eqb_neq. intros ->. done. }
  assert (strip_prefix (String c r) = (10, String c r)) as ->.
  { unfold strip_prefix. destruct r; [done|]. by rewrite H0. }
  cbn [parse_digits]. pose proof (digit_value_not_decimal c Hd) as Hv.
  destruct (digit_value c) as [d|]; [|done].
  by rewrite (proj2 (Z.ltb_ge d 10) Hv).
Qed.

(** ** The control endpoints *)

Section ControlPlane.
Context (srv : Server).

(** A request that is not authorised is answered 404 and nothing else
    happens apart from the error report of the [catch] block. *)
Lemma manage_put_unauthorised req :
  authorised srv req = false →
  status_codes (trace (manage_put srv req)) = [404]
  ∧ bodies (trace (manage_put srv req)) = [None]
  ∧ operations_of (trace (manage_put srv req)) = []
  ∧ outcome (manage_put srv req) = Ret tt.
Proof.
  unfold authorised, manage_put, decode, is_admin.
  destruct (decodeToken srv (query req !! "token")) as [err|payload]; intros H.
  - by repeat split.
  - rewrite M_bind_ret, H. by repeat split.
Qed.

(** The body of [manage_put] once the token is accepted. *)
Lemma manage_put_authorised req :
  authorised srv req = true →
  manage_put srv req =
    let operation := query req !! "operation" in
    if bool_decide (operation = Some "maintenance") then
      ([ScheduleMaintenance (parseInt (default "5" (query req !! "timeout")));
        ResWriteHead 200 None; ResEnd None], Ret tt)
    else if bool_decide (operation = Some "wipe-statistics") then
      ([WipeStatistics (srv_ctx srv); ResWriteHead 200 None; ResEnd None],
       Ret tt)
    else if bool_decide (operation = Some "force-close") then
      ([ForceClose (query req !! "wsId"); ResWriteHead 200 None; ResEnd None],
       Ret tt)
    else if bool_decide (operation = Some "reboot") then
      ([ProcessExit 0], Exit 0)
    else ([ResWriteHead 404 (Some []); ResEnd None], Ret tt).
Proof.
  unfold authorised, manage_put, decode, is_admin.
  destruct (decodeToken srv (query req !! "token")) as [err|payload]; [done|].
  intros Ha. rewrite M_bind_ret, Ha. cbn.
  destruct (bool_decide (_ = Some "maintenance")); [reflexivity|].
  destruct (bool_decide (_ = Some "wipe-statistics")); [reflexivity|].
  destruct (bool_decide (_ = Some "force-close")); [reflexivity|].
  destruct (bool_decide (_ = Some "reboot")); reflexivity.
Qed.

(** C4: on [PUT /api/v1/manage], a token that does not decode or whose
    [extra.admin] is not ['true'] gets a 404 and no operation is executed;
    an operation outside maintenance, wipe-statistics, force-close and reboot
    gets a 404; and reboot with an admin token exits the process with
    code 0. *)
Theorem manage_put_access_control req :
  (authorised srv req = false →
     status_codes (trace (manage_put srv req)) = [404]
     ∧ operations_of (trace (manage_put srv req)) = [])
  ∧ (query req !! "operation" ∉
       [Some "maintenance"; Some "wipe-statistics"; Some "force-close";
        Some "reboot"] →
     status_codes (trace (manage_put srv req)) = [404]
     ∧ operations_of (trace (manage_put srv req)) = [])
  ∧ (authorised srv req = true →
     query req !! "operation" = Some "reboot" →
     manage_put srv req = ([ProcessExit 0], Exit 0)).
Proof.
  split; [|split].
  - intros H. by destruct (manage_put_unauthorised req H) as (? & ? & ? & ?).
  - intros Hop. destruct (authorised srv req) eqn:Ha.
    + rewrite (manage_put_authorised req Ha). cbn zeta.
      repeat (case_bool_decide as Hc;
              [exfalso; apply Hop; rewrite Hc; set_solver|]; clear Hc).
      by split.
    + by destruct (manage_put_unauthorised req Ha) as (? & ? & ? & ?).
  - intros Ha Hop. rewrite (manage_put_authorised req Ha), Hop. reflexivity.
Qed.

(** C10: on [PUT /api/v1/manage] with an admin token and
    [operation=maintenance], [scheduleMaintenance] is called once, with 5
    when there is no [timeout] parameter and with [parseInt] of the parameter
    otherwise; for a decimal numeral up to 2^53, with or without a sign, that
    is the integer it denotes, and for a longer one the double nearest to
    it. *)
Theorem manage_put_maintenance_timeout req :
  authorised srv req = true →
  query req !! "operation" = Some "maintenance" →
  (query req !! "timeout" = None →
     operations_of (trace (manage_put srv req))
     = [ScheduleMaintenance (JNum 5)])
  ∧ (∀ timeout, query req !! "timeout" = Some timeout →
     operations_of (trace (manage_put srv req))
     = [ScheduleMaintenance (parseInt timeout)])
  ∧ (∀ ds, ds ≠ [] → Forall (λ d, (d < 10)%nat) ds →
     decimal_value ds <= 9007199254740992 →
     (query req !! "timeout" = Some (decimal ds) →
        operations_of (trace (manage_put srv req))
        = [ScheduleMaintenance (JNum (decimal_value ds))])
     ∧ (query req !! "timeout" = Some (String "+" (decimal ds)) →
        operations_of (trace (manage_put srv req))
        = [ScheduleMaintenance (JNum (decimal_value ds))])
     ∧ (0 < decimal_value ds →
        query req !! "timeout" = Some (String "-" (decimal ds)) →
        operations_of (trace (manage_put srv req))
        = [ScheduleMaintenance (JNum (- decimal_value ds))]))
  ∧ (∀ ds, ds ≠ [] → Forall (λ d, (d < 10)%nat) ds →
     query req !! "timeout" = Some (decimal ds) →
     operations_of (trace (manage_put srv req))
     = [ScheduleMaintenance (to_number 1 (decimal_value ds))])
  ∧ status_codes (trace (manage_put srv req)) = [200].
Proof.
  intros Ha Hop. rewrite (manage_put_authorised req Ha), Hop. cbn zeta.
  rewrite bool_decide_eq_true_2 by done.
  split; [|split; [|split; [|split]]].
  - intros ->. reflexivity.
  - intros timeout ->. reflexivity.
  - intros ds Hne Hds Hmax.
    destruct (parseInt_signed ds Hne Hds Hmax) as (Hplus & Hminus & _).
    split; [|split].
    + intros ->. cbn. by rewrite parseInt_decimal.
    + intros ->. cbn. by rewrite Hplus.
    + intros Hpos ->. cbn. by rewrite (Hminus Hpos).
  - intros ds Hne Hds ->. cbn. by rewrite parseInt_numeral.
  - reflexivity.
Qed.

(** The loop over the workspaces builds one entry for each of them. *)
Lemma collect_workspaces_fmap toWorkspaceString
    (ws : gmap string Workspace) :
  collect_workspaces toWorkspaceString ws
  = workspace_stats toWorkspaceString <$> ws.
Proof.
  unfold collect_workspaces.
  induction ws as [|k vv ws Hk IH] using map_ind.
  - by rewrite map_fold_empty, fmap_empty.
  - rewrite map_fold_insert_L; [|intros; by apply insert_insert_ne|done].
    by rewrite IH, fmap_insert.
Qed.

End ControlPlane.

(** ** The connection socket *)

Section ConnectionSocketFacts.
Context (srv : Server).


Lemma must_wait_true w :
  must_wait w = true ↔ bufferedAmount w > 128 ∧ readyState w = OPEN.
Proof.
  unfold must_wait. rewrite andb_true_iff, !bool_decide_eq_true. done.
Qed.

Lemma must_wait_false w :
  must_wait w = false ↔ bufferedAmount w <= 128 ∨ readyState w ≠ OPEN.
Proof.
  unfold must_wait. rewrite andb_false_iff, !bool_decide_eq_false.
  split; (intros [?|?]; [left; lia|by right]).
Qed.

(** While every observed turn shows the condition of the loop, the loop is
    still waiting when the fuel is spent. *)
Lemma await_drain_pending fuel ws k :
  (∀ j, (k ≤ j ≤ k + fuel)%nat → must_wait (ws j) = true) →
  await_drain fuel ws k = ([], Pending).
Proof.
  revert k. induction fuel as [|fuel IH]; intros k Hw; cbn [await_drain].
  - by rewrite Hw by lia.
  - rewrite Hw by lia. apply IH. intros j Hj. apply Hw. lia.
Qed.

(** The loop is left in the first turn that does not show its condition. *)
Lemma await_drain_leaves fuel ws k d :
  (d ≤ fuel)%nat →
  (∀ j, (k ≤ j < k + d)%nat → must_wait (ws j) = true) →
  must_wait (ws (k + d)%nat) = false →
  await_drain fuel ws k = ([], Ret (k + d)%nat).
Proof.
  revert k fuel. induction d as [|d IH]; intros k fuel Hd Hw Hk.
  - rewrite Nat.add_0_r in *. destruct fuel; cbn [await_drain]; by rewrite Hk.
  - destruct fuel as [|fuel]; [lia|]. cbn [await_drain].
    rewrite Hw by lia. replace (k + S d)%nat with (S k + d)%nat in * by lia.
    apply IH; [lia| |done]. intros j Hj. apply Hw. lia.
Qed.

Lemma await_drain_cases fuel ws k :
  (await_drain fuel ws k = ([], Pending)
   ∧ ∀ j, (k ≤ j ≤ k + fuel)%nat → must_wait (ws j) = true)
  ∨ (∃ d, (d ≤ fuel)%nat
     ∧ await_drain fuel ws k = ([], Ret (k + d)%nat)
     ∧ must_wait (ws (k + d)%nat) = false
     ∧ ∀ j, (k ≤ j < k + d)%nat → must_wait (ws j) = true).
Proof.
  revert k. induction fuel as [|fuel IH]; intros k.
  - destruct (must_wait (ws k)) eqn:Hk.
    + left. split; [cbn; by rewrite Hk|].
      intros j Hj. by replace j with k by lia.
    + right. exists O. rewrite Nat.add_0_r. repeat split; try done.
      * cbn. by rewrite Hk.
      * intros j Hj. lia.
  - destruct (must_wait (ws k)) eqn:Hk.
    + destruct (IH (S k)) as [[HP Hw]|(d & Hd & HR & Hl & Hw)].
      * left. split; [cbn [await_drain]; by rewrite Hk|].
        intros j Hj. destruct (decide (j = k)) as [->|]; [done|].
        apply Hw. lia.
      * right. exists (S d).
        replace (k + S d)%nat with (S k + d)%nat by lia.
        repeat split; [lia|cbn [await_drain]; by rewrite Hk|done|].
        intros j Hj. destruct (decide (j = k)) as [->|]; [done|].
        apply Hw. lia.
    + right. exists O. rewrite Nat.add_0_r. repeat split; try done.
      * lia.
      * cbn [await_drain]. by rewrite Hk.
      * intros j Hj. lia.
Qed.

(** The three ways a call of [send] can stand after [fuel] turns. *)
Lemma send_cases fuel ws write_error cs msg binary compression :
  (readyState (ws O) ≠ OPEN ∧ isClosed cs = false
   ∧ send srv fuel ws write_error cs msg binary compression
     = ([], Ret 0))
  ∨ ((readyState (ws O) = OPEN ∨ isClosed cs = true)
     ∧ send srv fuel ws write_error cs msg binary compression
       = ([], Pending)
     ∧ ∀ j, (j ≤ fuel)%nat → must_wait (ws j) = true)
  ∨ ((readyState (ws O) = OPEN ∨ isClosed cs = true)
     ∧ send srv fuel ws write_error cs msg binary compression
       = written srv msg binary compression write_error
     ∧ ∃ k, (k ≤ fuel)%nat ∧ must_wait (ws k) = false
       ∧ ∀ j, (j < k)%nat → must_wait (ws j) = true).
Proof.
  unfold send.
  destruct (bool_decide (readyState (ws O) = OPEN)) eqn:Ho;
    [apply bool_decide_eq_true in Ho|apply bool_decide_eq_false in Ho];
    destruct (isClosed cs) eqn:Hc; cbn [negb andb].
  4: { left. done. }
  all: right.
  all: destruct (await_drain_cases fuel ws O)
         as [[-> Hw]|(d & Hd & -> & Hl & Hw)].
  all: try (left; split; [by auto|]; split; [done|];
            intros j Hj; apply Hw; lia).
  all: right; split; [by auto|]; split;
    [unfold written; cbn; by destruct write_error|].
  all: exists d; repeat split; [done|done|]; intros j Hj; apply Hw; lia.
Qed.

(** Once a turn within the fuel shows the loop condition false, a call that
    passed the guard has performed its write. *)
Lemma send_leaves_at fuel k ws write_error cs msg binary compression :
  readyState (ws O) = OPEN ∨ isClosed cs = true →
  bufferedAmount (ws k) <= 128 ∨ readyState (ws k) ≠ OPEN →
  (k ≤ fuel)%nat →
  send srv fuel ws write_error cs msg binary compression
  = written srv msg binary compression write_error.
Proof.
  intros Hguard Hl Hk.
  destruct (send_cases fuel ws write_error cs msg binary compression)
    as [(Hn & Hc & _)|[(_ & _ & Hw)|(_ & HW & _)]]; [|exfalso|done].
  - destruct Hguard; [done|congruence].
  - apply must_wait_false in Hl. rewrite Hw in Hl by done. done.
Qed.

(** C1: on a socket whose transport is open, [send] has not completed, and
    has written nothing, for as long as every turn shows more than 128 bytes
    buffered on an open transport; it completes exactly when a turn shows at
    most 128 bytes buffered or a transport that is no longer open, and that
    is the turn it writes in. *)
Theorem send_waits_for_drain ws write_error cs msg binary compression :
  readyState (ws O) = OPEN →
  (∀ fuel,
     (∀ k, (k ≤ fuel)%nat →
        bufferedAmount (ws k) > 128 ∧ readyState (ws k) = OPEN) →
     send srv fuel ws write_error cs msg binary compression
     = ([], Pending))
  ∧ (∀ fuel,
     outcome (send srv fuel ws write_error cs msg binary
                compression) ≠ Pending →
     ∃ k, (k ≤ fuel)%nat
       ∧ (bufferedAmount (ws k) <= 128 ∨ readyState (ws k) ≠ OPEN)
       ∧ (∀ j, (j < k)%nat →
            bufferedAmount (ws j) > 128 ∧ readyState (ws j) = OPEN)
       ∧ send srv fuel ws write_error cs msg binary compression
         = written srv msg binary compression write_error)
  ∧ (∀ k fuel,
     bufferedAmount (ws k) <= 128 ∨ readyState (ws k) ≠ OPEN →
     (k ≤ fuel)%nat →
     send srv fuel ws write_error cs msg binary compression
     = written srv msg binary compression write_error).
Proof.
  intros Hopen. split; [|split].
  - intros fuel Hw.
    destruct (send_cases fuel ws write_error cs msg binary compression)
      as [(Hn & _)|[(_ & HP & _)|(_ & _ & k & Hk & Hl & _)]]; [done|done|].
    apply must_wait_false in Hl. destruct (Hw k Hk) as [Hb Ho].
    destruct Hl; [lia|done].
  - intros fuel Hout.
    destruct (send_cases fuel ws write_error cs msg binary compression)
      as [(Hn & _)|[(_ & HP & _)|(_ & HW & k & Hk & Hl & Hw)]]; [done| |].
    + rewrite HP in Hout. done.
    + exists k. split; [done|]. split; [by apply must_wait_false|].
      split; [|done]. intros j Hj. by apply must_wait_true, Hw.
  - intros k fuel Hl Hk. apply (send_leaves_at fuel k); auto.
Qed.

(** A call of [send] leaves no effect or the measurement and the write. *)
Lemma send_frames_binary_cases fuel ws write_error cs msg binary compression :
  trace (send srv fuel ws write_error cs msg binary
            compression) = []
  ∨ trace (send srv fuel ws write_error cs msg binary
            compression)
    = [CtxMeasure "send-data" (serialized_length srv (serialize msg binary));
       WsSend (serialize msg binary) true (Some compression)].
Proof.
  destruct (send_cases fuel ws write_error cs msg binary compression)
    as [(_ & _ & ->)|[(_ & -> & _)|(_ & -> & _)]]; cbn; auto.
Qed.

(** A socket that is neither open nor marked closed: [send] returns 0 at
    once and does nothing. *)
Lemma send_not_open_not_closed fuel ws write_error cs msg binary compression :
  readyState (ws O) ≠ OPEN → isClosed cs = false →
  send srv fuel ws write_error cs msg binary compression
  = ([], Ret 0).
Proof.
  intros Hn Hc. unfold send.
  by rewrite bool_decide_eq_false_2, Hc by done.
Qed.

(** C2 (as the code behaves): on a transport that is not open with the
    socket marked closed, [send] does not return early: it serializes the
    message, records the [send-data] metric and attempts the write. *)
Theorem send_on_closed_socket_writes fuel ws write_error cs msg binary
    compression :
  readyState (ws O) ≠ OPEN → isClosed cs = true →
  send srv fuel ws write_error cs msg binary compression
  = written srv msg binary compression write_error.
Proof.
  intros Hn Hc.
  destruct (send_cases fuel ws write_error cs msg binary compression)
    as [(_ & Hc' & _)|[(_ & _ & Hw)|(_ & HW & _)]]; [congruence| |done].
  specialize (Hw O ltac:(lia)). apply must_wait_true in Hw. tauto.
Qed.

(** C7 (amended): whatever the [binary] argument, [send] writes at most one
    frame, always in binary framing; the argument selects the serialization
    format only. *)
Theorem send_frames_always_binary fuel ws write_error cs msg binary
    compression :
  (trace (send srv fuel ws write_error cs msg binary
            compression) = []
   ∨ trace (send srv fuel ws write_error cs msg binary
            compression)
     = [CtxMeasure "send-data" (serialized_length srv (serialize msg binary));
        WsSend (serialize msg binary) true (Some compression)])
  ∧ (∀ smsg b,
     (smsg, b) ∈ frames (trace (send srv fuel ws write_error
                                   cs msg binary compression)) →
     smsg = serialize msg binary ∧ b = true).
Proof.
  destruct (send_cases fuel ws write_error cs msg binary compression)
    as [(_ & _ & ->)|[(_ & -> & _)|(_ & -> & _)]]; cbn.
  1,2: split; [by left|intros ? ? H; by apply elem_of_nil in H].
  split; [by right|]. intros smsg b H.
  apply list_elem_of_singleton in H. by inversion H.
Qed.

(** The refused outcomes are those the continuation acts on: the ones with
    an [upgrade] or an [error] field. *)
Lemma refused_session_covers s :
  has_upgrade s || has_error s = true ↔ ∃ stats log, refused_session s stats log.
Proof.
  split.
  - destruct s as [? ? ?|info|err]; [done| |]; intros _; eexists _, _;
      constructor.
  - by intros (stats & log & [info|err]).
Qed.

(** What the continuation has done after an upgrade or an error, in the
    three ways its call of [send] can stand. *)
Lemma session_resolved_cases fuel ws write_error cs s stats log :
  refused_session s stats log →
  (readyState (ws O) ≠ OPEN ∧ isClosed cs = false
   ∧ session_resolved srv fuel ws write_error cs s
     = (log ++ [WsClose],
        Ret {| cs_id := cs_id cs; isClosed := true; data := data cs |}))
  ∨ ((readyState (ws O) = OPEN ∨ isClosed cs = true)
     ∧ session_resolved srv fuel ws write_error cs s = (log, Pending)
     ∧ ∀ j, (j ≤ fuel)%nat → must_wait (ws j) = true)
  ∨ ((readyState (ws O) = OPEN ∨ isClosed cs = true)
     ∧ session_resolved srv fuel ws write_error cs s
       = (log
          ++ [CtxMeasure "send-data"
                (serialized_length srv
                   (serialize (upgrading_reply stats) false));
              WsSend (serialize (upgrading_reply stats) false) true
                (Some false)]
          ++ match write_error with Some _ => [] | None => [WsClose] end,
          match write_error with
          | Some err => Throw err
          | None => Ret {| cs_id := cs_id cs; isClosed := true;
                           data := data cs |}
          end)
     ∧ ∃ k, (k ≤ fuel)%nat ∧ must_wait (ws k) = false
       ∧ ∀ j, (j < k)%nat → must_wait (ws j) = true).
Proof.
  intros Hs.
  assert (session_resolved srv fuel ws write_error cs s
          = (let '(t, o) := send srv fuel ws write_error cs
                              (upgrading_reply stats) false false in
             match o with
             | Ret _ => (log ++ t ++ [WsClose],
                         Ret {| cs_id := cs_id cs; isClosed := true;
                                data := data cs |})
             | Throw err => (log ++ t, Throw err)
             | Exit c => (log ++ t, Exit c)
             | Pending => (log ++ t, Pending)
             end)) as ->.
  { destruct Hs as [[info|]|err]; unfold session_resolved;
      cbn [has_upgrade has_error orb when];
      rewrite ?M_bind_emit, ?M_bind_ret;
      unfold upgrading_response, upgrading_reply;
      cbn [upgradeInfo_of default from_option id];
      by destruct (send srv fuel ws write_error cs _ false false)
        as [t [n|e|c|]]. }
  destruct (send_cases fuel ws write_error cs (upgrading_reply stats) false
              false)
    as [(Hn & Hc & ->)|[(Hg & -> & Hw)|(Hg & -> & Hk)]].
  - left. done.
  - right. left. by rewrite app_nil_r.
  - right. right. split; [done|]. split; [|done].
    unfold written. destruct write_error; [by rewrite app_nil_r|done].
Qed.

(** C9 (amended): when [addSession] resolves to an upgrade or to an error
    (which is logged), the continuation makes one call of [send] with
    [{id: -1, result: {state: 'upgrading', stats}}], textual and
    uncompressed, where [stats] is the [upgradeInfo] of an upgrade and
    undefined for an error, and closes the socket only when that call
    resolves.  So: once a turn shows the transport drained or no longer
    open, a call that passed the guard has written the one frame, and the
    close follows unless the write failed; on a transport that is not open,
    with the socket not marked closed, nothing is written and the socket is
    closed; while the transport stays open and full nothing has happened.
    One frame followed by the close is what the client gets exactly in the
    first case with a write that succeeds; no other frame is ever written,
    and the frames depend on the outcome through [stats] only. *)
Theorem session_resolved_upgrading fuel ws write_error cs s stats log :
  refused_session s stats log →
  (∀ k, readyState (ws O) = OPEN ∨ isClosed cs = true →
     (k ≤ fuel)%nat →
     bufferedAmount (ws k) <= 128 ∨ readyState (ws k) ≠ OPEN →
     session_resolved srv fuel ws write_error cs s
     = (log
        ++ [CtxMeasure "send-data"
              (serialized_length srv
                 (serialize (upgrading_reply stats) false));
            WsSend (serialize (upgrading_reply stats) false) true
              (Some false)]
        ++ match write_error with Some _ => [] | None => [WsClose] end,
        match write_error with
        | Some err => Throw err
        | None => Ret {| cs_id := cs_id cs; isClosed := true;
                         data := data cs |}
        end))
  ∧ (readyState (ws O) ≠ OPEN → isClosed cs = false →
     session_resolved srv fuel ws write_error cs s
     = (log ++ [WsClose],
        Ret {| cs_id := cs_id cs; isClosed := true; data := data cs |}))
  ∧ ((∀ k, (k ≤ fuel)%nat →
        bufferedAmount (ws k) > 128 ∧ readyState (ws k) = OPEN) →
     session_resolved srv fuel ws write_error cs s = (log, Pending))
  ∧ (one_frame_then_closed
       (trace (session_resolved srv fuel ws write_error cs s))
     ↔ write_error = None
       ∧ (readyState (ws O) = OPEN ∨ isClosed cs = true)
       ∧ ∃ k, (k ≤ fuel)%nat
           ∧ (bufferedAmount (ws k) <= 128 ∨ readyState (ws k) ≠ OPEN))
  ∧ (∀ f, f ∈ frames (trace (session_resolved srv fuel ws write_error
                               cs s)) →
       f = (serialize (upgrading_reply stats) false, true))
  ∧ (∀ s' log', refused_session s' stats log' →
       frames (trace (session_resolved srv fuel ws write_error cs s'))
       = frames (trace (session_resolved srv fuel ws write_error cs s))).
Proof.
  intros Hs.
  assert (∀ s' log', refused_session s' stats log' →
            frames log' = [] ∧ WsClose ∉ log') as Hlog.
  { intros s' log' [info|err]; cbn; split; try done.
    - apply not_elem_of_nil.
    - intros H. apply list_elem_of_singleton in H. done. }
  destruct (Hlog s log Hs) as [Hfl Hcl].
  pose proof (session_resolved_cases fuel ws write_error cs s stats log Hs)
    as Hc.
  split; [|split; [|split; [|split; [|split]]]].
  - intros k Hguard Hk Hl.
    destruct Hc as [(Hn & Hcs & _)|[(_ & _ & Hw)|(_ & -> & _)]];
      [exfalso|exfalso|done].
    + destruct Hguard; [done|congruence].
    + apply must_wait_false in Hl. rewrite Hw in Hl by done. done.
  - intros Hn Hcs.
    destruct Hc as [(_ & _ & ->)|[(Hg & _)|(Hg & _)]]; [done| |];
      (destruct Hg; [done|congruence]).
  - intros Hw.
    destruct Hc as [(Hn & _)|[(_ & -> & _)|(_ & _ & k & Hk & Hl & _)]];
      [|done|].
    + by destruct (Hw O ltac:(lia)).
    + apply must_wait_false in Hl. destruct (Hw k Hk).
      destruct Hl; [lia|done].
  - unfold one_frame_then_closed, trace, frames.
    destruct Hc as [(Hn & Hcs & ->)|[(Hg & -> & Hw)|(Hg & -> & k & Hk & Hl & _)]];
      cbn [fst]; rewrite ?omap_app; fold (frames log); rewrite Hfl; cbn.
    + split; [by intros [? _]|]. intros (_ & Hg & _).
      destruct Hg; [done|congruence].
    + split; [by intros [? _]|]. intros (_ & _ & k & Hk & Hl).
      apply must_wait_false in Hl. rewrite Hw in Hl by done. done.
    + destruct write_error as [err|]; cbn.
      * split; [|by intros (? & _)]. intros [_ H].
        apply elem_of_app in H as [H|H]; [done|].
        repeat (apply elem_of_cons in H as [H|H]; [discriminate|]).
        by apply elem_of_nil in H.
      * split.
        -- intros _. split; [done|]. split; [done|].
           exists k. split; [done|]. by apply must_wait_false.
        -- intros _. split; [done|]. apply elem_of_app. right.
           do 2 apply list_elem_of_further. apply list_elem_of_here.
  - intros f. unfold trace, frames.
    destruct Hc as [(_ & _ & ->)|[(_ & -> & _)|(_ & -> & _)]];
      cbn [fst]; rewrite ?omap_app; fold (frames log); rewrite Hfl; cbn.
    + intros H. by apply elem_of_nil in H.
    + intros H. by apply elem_of_nil in H.
    + destruct write_error; cbn; intros H;
        by apply list_elem_of_singleton in H.
  - intros s' log' Hs'. destruct (Hlog s' log' Hs') as [Hfl' _].
    unfold trace, frames.
    destruct (session_resolved_cases fuel ws write_error cs s' stats log' Hs')
      as [(Hn' & Hcs' & ->)|[(Hg' & -> & Hw')|(Hg' & -> & k' & Hk' & Hl' & _)]];
      destruct Hc as [(Hn & Hcs & ->)|[(Hg & -> & Hw)|(Hg & -> & k & Hk & Hl & _)]];
      cbn [fst]; rewrite ?omap_app; fold (frames log); fold (frames log');
      rewrite ?Hfl, ?Hfl'; try done.
    + destruct Hg; [done|congruence].
    + rewrite Hw' in Hl by done. done.
    + destruct Hg'; [done|congruence].
    + rewrite Hw in Hl' by done. done.
Qed.
End ConnectionSocketFacts.

(** ** The upgrade handler *)

Section UpgradeFacts.
Context (srv : Server).

(** A refused connection answers every frame with [UNAUTHORIZED]. *)
Lemma refused_trace new_id request msgs t :
  on_upgrade srv new_id request = (t, Ret Refused) →
  connection_trace srv new_id request msgs = t ++ ((λ _, reply srv) <$> msgs).
Proof.
  intros H. unfold connection_trace. rewrite H. f_equal.
  induction msgs as [|msg msgs IH]; [done|]. cbn. by rewrite <- IH.
Qed.

(** The observations on a trace that ends in a refusal and its replies. *)
Lemma refusal_observed pre err (msgs : list RawData) :
  frames pre = [] → List.filter is_close pre = [] →
  List.filter is_add_session pre = [] →
  let t := (pre ++ refusal srv err) ++ ((λ _, reply srv) <$> msgs) in
  frames t
  = (serialize (unauthorized_hello srv) false, false)
    :: replicate (length msgs)
         (serialize (unauthorized_reply srv) false, false)
  ∧ List.filter is_close t = []
  ∧ List.filter is_add_session t = [].
Proof.
  intros Hf Hc Ha t. subst t. unfold frames in *.
  rewrite !omap_app, !List.filter_app, Hf, Hc, Ha.
  assert (List.filter is_close (refusal srv err) = []
          ∧ List.filter is_add_session (refusal srv err) = []
          ∧ omap (λ e, match e with
                       | WsSend smsg b _ => Some (smsg, b)
                       | _ => None
                       end) (refusal srv err)
            = [(serialize (unauthorized_hello srv) false, false)])
    as (-> & -> & ->) by (unfold refusal; by destruct (LOGGING_ENABLED srv)).
  cbn [app]. induction msgs as [|msg msgs (IH1 & IH2 & IH3)]; [done|].
  csimpl in *. rewrite IH2, IH3. repeat split. f_equal.
  by injection IH1 as ->.
Qed.

(** C3 (amended): when the token of an upgrade request does not decode, the
    handshake is completed and one [UNAUTHORIZED] frame is sent at once; the
    server does not close the socket but answers every frame the client then
    sends with another [UNAUTHORIZED] frame; [addSession] is never
    called. *)
Theorem bad_token_refused new_id request msgs err :
  decodeToken srv (Some (substring1 (url_pathname request))) = inl err →
  on_upgrade srv new_id request
  = (refusal srv err, Ret Refused)
  ∧ connection_trace srv new_id request msgs
    = refusal srv err ++ ((λ _, reply srv) <$> msgs)
  ∧ frames (connection_trace srv new_id request msgs)
    = (serialize (unauthorized_hello srv) false, false)
      :: replicate (length msgs)
           (serialize (unauthorized_reply srv) false, false)
  ∧ List.filter is_close (connection_trace srv new_id request msgs) = []
  ∧ List.filter is_add_session (connection_trace srv new_id request msgs)
    = [].
Proof.
  intros Hd.
  assert (on_upgrade srv new_id request
          = (refusal srv err, Ret Refused)) as Hup.
  { unfold on_upgrade, decode, refusal. rewrite Hd.
    by destruct (LOGGING_ENABLED srv). }
  split; [done|]. rewrite (refused_trace _ _ msgs _ Hup). split; [done|].
  by apply (refusal_observed [] err msgs).
Qed.

(** C6: when the token decodes but names another product, the request
    takes the path of a token that does not decode: the handshake is
    completed, the client is sent the [UNAUTHORIZED] response, and
    [addSession] is never called, neither by the upgrade nor by any later
    frame. *)
Theorem wrong_product_refused new_id request msgs payload :
  decodeToken srv (Some (substring1 (url_pathname request))) = inr payload →
  productId (workspace payload) ≠ srv_productId srv →
  outcome (on_upgrade srv new_id request) = Ret Refused
  ∧ connection_trace srv new_id request msgs
    = ((if LOGGING_ENABLED srv then [CtxError "invalid product"] else [])
       ++ refusal srv "Invalid workspace product")
      ++ ((λ _, reply srv) <$> msgs)
  ∧ head (frames (connection_trace srv new_id request msgs))
    = Some (serialize {| id := Some (IdNum (-1));
                         result := Some (JSString "hello");
                         error := Some (UNAUTHORIZED srv) |} false, false)
  ∧ List.filter is_add_session (connection_trace srv new_id request msgs)
    = [].
Proof.
  intros Hd Hp.
  assert (on_upgrade srv new_id request
          = ((if LOGGING_ENABLED srv then [CtxError "invalid product"] else [])
             ++ refusal srv
                  "Invalid workspace product", Ret Refused)) as Hup.
  { unfold on_upgrade, decode, refusal. rewrite Hd, M_bind_ret.
    rewrite bool_decide_eq_false_2 by done.
    by destruct (LOGGING_ENABLED srv). }
  split; [by rewrite Hup|]. rewrite (refused_trace _ _ msgs _ Hup).
  split; [done|].
  destruct (refusal_observed
              (if LOGGING_ENABLED srv then [CtxError "invalid product"] else [])
              "Invalid workspace product" msgs) as (-> & _ & ->);
    try by destruct (LOGGING_ENABLED srv).
Qed.
End UpgradeFacts.

(** ** wipeStatistics *)

Lemma children_of_reset n : children_of (reset n) = children_of n.
Proof. reflexivity. Qed.

(** Resetting an object leaves the reference structure as it is. *)
Lemma shape_reset (h : gmap loc MetricsNode) m n :
  h !! m = Some n → shape (<[m := reset n]> h) = shape h.
Proof.
  intros Hm. unfold shape. rewrite fmap_insert, children_of_reset.
  apply insert_id. by rewrite lookup_fmap, Hm.
Qed.


Lemma sum_list_app (l1 l2 : list nat) :
  sum_list (l1 ++ l2) = (sum_list l1 + sum_list l2)%nat.
Proof. induction l1 as [|x l1 IH]; cbn; lia. Qed.

(** The loop ends within as many iterations as the trees below the work list
    have nodes, and keeps the reference structure. *)
Lemma wipe_loop_finishes fuel (h : gmap loc MetricsNode) toClean sizes :
  Forall2 (tree_size (shape h)) toClean sizes →
  (sum_list sizes ≤ fuel)%nat →
  ∃ h', wipe_loop fuel h toClean = Finished h' ∧ shape h' = shape h.
Proof.
  revert h toClean sizes.
  induction fuel as [|fuel IH]; intros h toClean sizes Hts Hfuel.
  - destruct Hts as [|v n rest sizes Hv Hrest]; [by exists h|].
    inversion Hv; subst. cbn in Hfuel. lia.
  - destruct Hts as [|v n rest sizes Hv Hrest]; [by exists h|].
    inversion Hv as [l cs csizes Hcs Hchildren]; subst.
    unfold shape in Hcs. rewrite lookup_fmap in Hcs.
    destruct (h !! v) as [node|] eqn:Hnode; [|done].
    injection Hcs as <-.
    cbn [wipe_loop]. unfold cleanMetrics. rewrite Hnode. cbn.
    destruct (IH (<[v := reset node]> h) (rest ++ children_of node)
                (sizes ++ csizes)) as (h' & Hrun & Hshape).
    + rewrite (shape_reset h v node Hnode). by apply Forall2_app.
    + rewrite sum_list_app. cbn in Hfuel. lia.
    + exists h'. split; [done|]. by rewrite Hshape, (shape_reset h v node).
Qed.



(** ** The properties on the sample data *)

Example parseInt_default : parseInt "5" = JNum 5.
Proof. reflexivity. Qed.

Example parseInt_hex : parseInt "  -0x1fz" = JNum (-31).
Proof. reflexivity. Qed.

Example parseInt_prefix : parseInt "12abc" = JNum 12.
Proof. reflexivity. Qed.

Example parseInt_no_digit : parseInt "soon" = JNaN.
Proof. reflexivity. Qed.

Example parseInt_no_break_space :
  parseInt (String (ascii_of_nat 194) (String (ascii_of_nat 160) "42"))
  = JNum 42.
Proof. reflexivity. Qed.

Example parseInt_byte_order_mark :
  parseInt (String (ascii_of_nat 239)
              (String (ascii_of_nat 187) (String (ascii_of_nat 191) " 7")))
  = JNum 7.
Proof. reflexivity. Qed.

Example parseInt_rounds_to_even :
  parseInt "9007199254740993" = JNum 9007199254740992
  ∧ parseInt "9007199254740995" = JNum 9007199254740996
  ∧ parseInt "-18014398509481987" = JNum (-18014398509481988).
Proof. repeat split. Qed.

Example parseInt_negative_zero : parseInt "-0" = JNegZero.
Proof. reflexivity. Qed.

Example manage_sample_maintenance :
  manage_put Sample.server
    (Sample.request [("token", "admin"); ("operation", "maintenance")])
  = ([ScheduleMaintenance (JNum 5); ResWriteHead 200 None; ResEnd None],
     Ret tt).
Proof. vm_compute. reflexivity. Qed.

Example manage_sample_user :
  manage_put Sample.server
    (Sample.request [("token", "user"); ("operation", "reboot")])
  = ([ResWriteHead 404 (Some []); ResEnd None], Ret tt).
Proof. vm_compute. reflexivity. Qed.

Example send_sample_stalled :
  send Sample.server 1000 Sample.stalled None Sample.a_socket
    Sample.pong true false = ([], Pending).
Proof. vm_compute. reflexivity. Qed.

Example send_sample_not_open_not_closed :
  send Sample.server 0 (λ _, Sample.closed_ws) None Sample.a_socket
    Sample.pong true false = ([], Ret 0).
Proof. reflexivity. Qed.

Lemma manage_put_access_control_witness :
  status_codes
    (trace (manage_put Sample.server
              (Sample.request [("token", "user"); ("operation", "reboot")])))
  = [404]
  ∧ manage_put Sample.server
      (Sample.request [("token", "admin"); ("operation", "reboot")])
    = ([ProcessExit 0], Exit 0).
Proof.
  split.
  - destruct (manage_put_access_control Sample.server
                (Sample.request [("token", "user"); ("operation", "reboot")]))
      as (Hdenied & _ & _).
    apply Hdenied. vm_compute. reflexivity.
  - destruct (manage_put_access_control Sample.server
                (Sample.request [("token", "admin"); ("operation", "reboot")]))
      as (_ & _ & Hreboot).
    apply Hreboot; vm_compute; reflexivity.
Defined.

Lemma manage_put_maintenance_timeout_witness :
  operations_of
    (trace (manage_put Sample.server
              (Sample.request [("token", "admin"); ("operation", "maintenance");
                               ("timeout", "-15")])))
  = [ScheduleMaintenance (JNum (-15))].
Proof.
  destruct (manage_put_maintenance_timeout Sample.server
              (Sample.request [("token", "admin"); ("operation", "maintenance");
                               ("timeout", "-15")]))
    as (_ & _ & Hdecimal & _).
  - vm_compute. reflexivity.
  - vm_compute. reflexivity.
  - destruct (Hdecimal [1; 5]%nat) as (_ & _ & Hminus).
    + discriminate.
    + repeat constructor.
    + vm_compute. discriminate.
    + apply Hminus.
      * vm_compute. reflexivity.
      * vm_compute. reflexivity.
Defined.


Lemma send_waits_for_drain_witness :
  send Sample.server 2 Sample.draining None Sample.a_socket
    Sample.pong true false = ([], Pending)
  ∧ send Sample.server 3 Sample.draining None Sample.a_socket
      Sample.pong true false
    = ([CtxMeasure "send-data" 42; WsSend (serialize Sample.pong true) true
          (Some false)], Ret 42).
Proof.
  destruct (send_waits_for_drain Sample.server Sample.draining None
              Sample.a_socket Sample.pong true false eq_refl)
    as (Hwait & _ & Hdone).
  split.
  - apply Hwait. intros k Hk.
    destruct k as [|[|[|k]]]; [split; [reflexivity|reflexivity]..|lia].
  - apply (Hdone 3%nat 3%nat); [left; vm_compute; discriminate|lia].
Defined.

Lemma send_on_closed_socket_writes_witness :
  send Sample.server 0 (λ _, Sample.closed_ws)
    (Some "WebSocket is not open") Sample.closed_socket Sample.pong false false
  = ([CtxMeasure "send-data" 42;
      WsSend (serialize Sample.pong false) true (Some false)],
     Throw "WebSocket is not open").
Proof.
  apply (send_on_closed_socket_writes Sample.server 0
           (λ _, Sample.closed_ws) (Some "WebSocket is not open")
           Sample.closed_socket Sample.pong false false).
  - discriminate.
  - reflexivity.
Defined.

(** C7 (as stated) fails: with [binary = false] on an open, drained
    transport the frame is written in binary framing all the same. *)
Lemma send_textual_frame_is_binary :
  ¬ framing_follows_flag
      (trace (send Sample.server 0 (λ _, Sample.open_ws 0) None
                Sample.a_socket Sample.pong false false)) false.
Proof.
  intros H. specialize (H (serialize Sample.pong false) true).
  discriminate H. apply list_elem_of_here.
Qed.

(** C9 (as stated) fails: on a transport that is no longer open the
    continuation writes no frame and closes the socket; and when the write
    fails the frame is written and the socket is never closed. *)
Lemma session_refused_without_frame :
  session_resolved Sample.server 0 (λ _, Sample.closed_ws) None
    Sample.a_socket (AddSessionUpgrade None)
  = ([WsClose], Ret Sample.closed_socket)
  ∧ ¬ one_frame_then_closed
        (trace (session_resolved Sample.server 0 (λ _, Sample.closed_ws) None
                  Sample.a_socket (AddSessionUpgrade None)))
  ∧ session_resolved Sample.server 0 (λ _, Sample.open_ws 0) (Some "EPIPE")
      Sample.a_socket (AddSessionError "no pipeline")
    = ([CtxError "error"; CtxMeasure "send-data" 42;
        WsSend (serialize (upgrading_reply JSUndefined) false) true
          (Some false)], Throw "EPIPE")
  ∧ ¬ one_frame_then_closed
        (trace (session_resolved Sample.server 0 (λ _, Sample.open_ws 0)
                  (Some "EPIPE") Sample.a_socket
                  (AddSessionError "no pipeline"))).
Proof.
  split; [reflexivity|]. split; [by intros [H _]|].
  split; [reflexivity|]. intros [_ H]. vm_compute in H.
  repeat (apply elem_of_cons in H as [H|H]; [discriminate|]).
  by apply elem_of_nil in H.
Qed.

Lemma session_resolved_upgrading_witness :
  session_resolved Sample.server 0 (λ _, Sample.open_ws 0) None
    Sample.a_socket (AddSessionError "no pipeline")
  = ([CtxError "error"; CtxMeasure "send-data" 42;
      WsSend (serialize {| id := Some (IdNum (-1));
                           result := Some (JSObject
                             [Field "state" (JSString "upgrading");
                              Field "stats" JSUndefined]);
                           error := None |} false) true (Some false);
      WsClose], Ret Sample.closed_socket).
Proof.
  destruct (session_resolved_upgrading Sample.server 0
              (λ _, Sample.open_ws 0) None Sample.a_socket
              (AddSessionError "no pipeline") JSUndefined [CtxError "error"])
    as (H & _).
  - apply refused_error.
  - apply (H O); [left; reflexivity|lia|left; vm_compute; discriminate].
Defined.

Lemma bad_token_socket_left_open :
  ¬ one_frame_then_closed Sample.bad_upgrade
  ∧ length (frames Sample.bad_upgrade) = 2%nat
  ∧ WsClose ∉ Sample.bad_upgrade.
Proof.
  assert (WsClose ∉ Sample.bad_upgrade) as Hc.
  { vm_compute. intros H.
    repeat (apply elem_of_cons in H as [H|H]; [discriminate|]).
    by apply elem_of_nil in H. }
  split; [by intros [_ H]|]. split; [reflexivity|done].
Qed.

Lemma bad_token_refused_witness :
  List.filter is_add_session Sample.bad_upgrade = []
  ∧ length (frames Sample.bad_upgrade) = 2%nat.
Proof.
  destruct (bad_token_refused Sample.server "c1"
              (Sample.upgrade_request "/garbage") [RawBuffer "ping"]
              "jwt malformed" eq_refl) as (_ & _ & Hf & _ & Ha).
  split; [exact Ha|]. unfold Sample.bad_upgrade. rewrite Hf. reflexivity.
Defined.

Lemma wrong_product_refused_witness :
  List.filter is_add_session
    (connection_trace Sample.server "c1"
       (Sample.upgrade_request "/foreign") [RawBuffer "ping"]) = [].
Proof.
  apply (wrong_product_refused Sample.server "c1"
           (Sample.upgrade_request "/foreign") [RawBuffer "ping"]
           Sample.foreign_token eq_refl).
  discriminate.
Defined.


(** * Further properties *)

(** ** wipeStatistics: termination, frame and idempotence *)

Lemma reset_reset n : reset (reset n) = reset n.
Proof. reflexivity. Qed.

(** A run that finished met a finite tree below its work list, with no more
    nodes than it had fuel. *)
Lemma wipe_loop_finished_tree fuel (h h' : gmap loc MetricsNode) toClean :
  wipe_loop fuel h toClean = Finished h' →
  ∃ sizes, Forall2 (tree_size (shape h)) toClean sizes
    ∧ (sum_list sizes ≤ fuel)%nat.
Proof.
  revert h toClean. induction fuel as [|fuel IH]; intros h toClean Hrun.
  - destruct toClean as [|v rest]; [|done].
    exists []. split; [constructor|cbn; lia].
  - destruct toClean as [|v rest].
    { exists []. split; [constructor|cbn; lia]. }
    cbn [wipe_loop] in Hrun. unfold cleanMetrics in Hrun.
    destruct (h !! v) as [node|] eqn:Hnode; [|done]. cbn in Hrun.
    destruct (IH _ _ Hrun) as (sizes & Hsizes & Hsum).
    rewrite (shape_reset h v node Hnode) in Hsizes.
    apply Forall2_app_inv_l in Hsizes
      as (rsizes & csizes & Hrest & Hchildren & ->).
    rewrite sum_list_app in Hsum.
    exists (S (sum_list csizes) :: rsizes). split; [|cbn; lia].
    constructor; [|done].
    apply (tree_size_node _ v (children_of node) csizes); [|done].
    unfold shape. by rewrite lookup_fmap, Hnode.
Qed.

(** X1: [wipeStatistics] on a [MeasureMetricsContext] finishes within
    [fuel] iterations exactly when the metric objects below the context
    unfold into a finite tree of at most [fuel] nodes. *)
Theorem wipeStatistics_finishes_iff fuel metrics st :
  (∃ st', wipeStatistics fuel (MeasureMetricsContext metrics) st = Finished st')
  ↔ (∃ n, (n ≤ fuel)%nat ∧ tree_size (shape (store st)) metrics n).
Proof.
  split.
  - intros (st' & Hrun). cbn in Hrun.
    destruct (wipe_loop fuel (store st) [metrics]) as [h'| |] eqn:Hloop;
      [|done|done].
    destruct (wipe_loop_finished_tree _ _ _ _ Hloop) as (sizes & Hsizes & Hsum).
    inversion Hsizes as [|? n ? rest Htree Hnil]; subst.
    inversion Hnil; subst. exists n. split; [cbn in Hsum; lia|done].
  - intros (n & Hn & Htree).
    destruct (wipe_loop_finishes fuel (store st) [metrics] [n])
      as (h' & Hrun & _); [by repeat constructor|cbn; lia|].
    cbn. rewrite Hrun. by eexists.
Qed.





Lemma Forall2_tree_elem (P : loc → nat → Prop) cs sizes c :
  Forall2 P cs sizes → c ∈ cs → ∃ s, P c s ∧ (s ≤ sum_list sizes)%nat.
Proof.
  induction 1 as [|c' s cs sizes Hc _ IH]; intros Hin.
  - by apply elem_of_nil in Hin.
  - apply elem_of_cons in Hin as [->|Hin].
    + exists s. split; [done|cbn; lia].
    + destruct (IH Hin) as (s' & Hs' & Hle). exists s'. split; [done|cbn; lia].
Qed.

(** What is found below an object of a finite tree is a finite tree that is
    no larger. *)
Lemma tree_size_reach sh u l n :
  reach sh u l → tree_size sh u n → ∃ n', (n' ≤ n)%nat ∧ tree_size sh l n'.
Proof.
  intros Hreach. revert n.
  induction Hreach as [l|u cs c l Hcs Hc _ IH]; intros n Htree.
  - by exists n.
  - inversion Htree as [? cs' sizes Hcs' Hchildren]; subst.
    rewrite Hcs in Hcs'. injection Hcs' as <-.
    destruct (Forall2_tree_elem _ _ _ c Hchildren Hc) as (s & Hs & Hle).
    destruct (IH s Hs) as (n' & Hn' & Hl). exists n'. split; [lia|done].
Qed.

Lemma no_tree_on_cycle sh m cs c n :
  sh !! m = Some cs → c ∈ cs → reach sh c m → ¬ tree_size sh m n.
Proof.
  intros Hcs Hc Hback. induction n as [n IH] using lt_wf_ind. intros Htree.
  inversion Htree as [? cs' sizes Hcs' Hchildren]; subst.
  rewrite Hcs in Hcs'. injection Hcs' as <-.
  destruct (Forall2_tree_elem _ _ _ c Hchildren Hc) as (s & Hs & Hle).
  destruct (tree_size_reach _ _ _ _ Hback Hs) as (n' & Hn' & Hm).
  apply (IH n'); [lia|done].
Qed.

(** X4: when the metrics of the context lie on a cycle of references,
    [wipeStatistics] does not finish, whatever the fuel. *)
Theorem wipeStatistics_cycle_never_finishes fuel metrics st st' cs c :
  shape (store st) !! metrics = Some cs → c ∈ cs →
  reach (shape (store st)) c metrics →
  wipeStatistics fuel (MeasureMetricsContext metrics) st ≠ Finished st'.
Proof.
  intros Hcs Hc Hback Hrun. cbn in Hrun.
  destruct (wipe_loop fuel (store st) [metrics]) as [h'| |] eqn:Hloop;
    [|done|done].
  destruct (wipe_loop_finished_tree _ _ _ _ Hloop) as (sizes & Hsizes & _).
  inversion Hsizes as [|? n ? rest Htree _]; subst.
  by apply (no_tree_on_cycle _ _ _ _ n Hcs Hc Hback).
Qed.

(** ** getStatistics: the entries of the breakdown *)

(** X5: in the breakdown an administrator gets, every entry belongs to a
    workspace of the registry, its [sessionsTotal] is the number of sessions
    it lists, which is the number of sessions attached to the workspace, and
    the user ids it lists are those of the attached sessions. *)
Theorem getStatistics_admin_entries toWorkspaceString read_gauges ctx sm k e :
  activeSessions
    (statistics (getStatistics toWorkspaceString read_gauges ctx sm true)) !! k
  = Some e →
  ∃ vv, workspaces sm !! k = Some vv
    ∧ sessionsTotal e = length (st_sessions e)
    ∧ sessionsTotal e = size (ws_sessions vv)
    ∧ (∀ u, u ∈ userId <$> st_sessions e
          ↔ ∃ sid ref, ws_sessions vv !! sid = Some ref
                       ∧ getUser (session ref) = u).
Proof.
  cbn. rewrite collect_workspaces_fmap, lookup_fmap.
  destruct (workspaces sm !! k) as [vv|] eqn:Hk; [|done].
  intros [= <-]. exists vv. split; [done|]. cbn.
  rewrite length_fmap, length_map_to_list. split; [done|]. split; [done|].
  intros u. rewrite <- list_fmap_compose, list_elem_of_fmap. split.
  - intros ([sid ref] & -> & Hin). apply elem_of_map_to_list in Hin.
    by exists sid, ref.
  - intros (sid & ref & Href & <-). exists (sid, ref).
    split; [done|]. by apply elem_of_map_to_list.
Qed.

(** ** The connection socket: accounting, errors and closing *)

Section ConnectionSocketMore.
Context (srv : Server).

(** X6: the bytes [send] records under [send-data] are the bytes it
    returns when it resolves (none on the early return); a call that rejects
    has recorded the whole message all the same, and a call that is still
    waiting has recorded nothing. *)
Theorem send_accounts_what_it_returns fuel ws write_error cs msg binary
    compression :
  (∀ n, outcome (send srv fuel ws write_error cs msg binary compression)
        = Ret n →
     measured (trace (send srv fuel ws write_error cs msg binary compression))
     = n)
  ∧ (∀ err, outcome (send srv fuel ws write_error cs msg binary compression)
            = Throw err →
     measured (trace (send srv fuel ws write_error cs msg binary compression))
     = serialized_length srv (serialize msg binary))
  ∧ (outcome (send srv fuel ws write_error cs msg binary compression)
     = Pending →
     trace (send srv fuel ws write_error cs msg binary compression) = []).
Proof.
  destruct (send_cases srv fuel ws write_error cs msg binary compression)
    as [(_ & _ & ->)|[(_ & -> & _)|(_ & -> & _)]]; cbn.
  - split; [by intros n [= <-]|]. by split.
  - by repeat split.
  - destruct write_error as [err|]; cbn.
    + split; [done|]. split; [intros; lia|done].
    + split; [intros n [= <-]; lia|]. by split.
Qed.

(** X7: [send] rejects exactly when it passed the guard, some turn within
    the fuel let it leave the wait loop, and the transport reported a write
    error, which is then the error it rejects with. *)
Theorem send_rejects_iff fuel ws write_error cs msg binary compression err :
  outcome (send srv fuel ws write_error cs msg binary compression) = Throw err
  ↔ write_error = Some err
    ∧ (readyState (ws O) = OPEN ∨ isClosed cs = true)
    ∧ ∃ k, (k ≤ fuel)%nat
        ∧ (bufferedAmount (ws k) <= 128 ∨ readyState (ws k) ≠ OPEN).
Proof.
  split.
  - destruct (send_cases srv fuel ws write_error cs msg binary compression)
      as [(_ & _ & ->)|[(_ & -> & _)|(Hguard & -> & k & Hk & Hl & _)]];
      [done|done|].
    destruct write_error as [err'|]; [|done]. intros [= <-].
    split; [done|]. split; [done|].
    exists k. split; [done|]. by apply must_wait_false.
  - intros (-> & Hguard & k & Hk & Hl).
    by rewrite (send_leaves_at srv fuel k ws _ cs msg binary compression
                  Hguard Hl Hk).
Qed.

(** X8: the continuation of [addSession] closes the socket exactly when
    the outcome is an upgrade or an error and its [send] has resolved: not
    for an active session, not while the send waits, and not when the write
    has failed. *)
Theorem session_resolved_closes_iff fuel ws write_error cs s :
  WsClose ∈ trace (session_resolved srv fuel ws write_error cs s)
  ↔ has_upgrade s || has_error s = true
    ∧ ∃ n, outcome (send srv fuel ws write_error cs (upgrading_response s)
                      false false) = Ret n.
Proof.
  unfold session_resolved.
  destruct (has_upgrade s || has_error s) eqn:Hs.
  - rewrite M_bind_trace.
    assert (outcome (when (has_error s) (emit (CtxError "error"))) = Ret tt
            ∧ WsClose ∉ trace (when (has_error s) (emit (CtxError "error"))))
      as [-> Hlog].
    { destruct (has_error s); cbn; split; try done.
      - intros H. apply list_elem_of_singleton in H. done.
      - apply not_elem_of_nil. }
    rewrite elem_of_app.
    destruct (send_cases srv fuel ws write_error cs (upgrading_response s)
                false false)
      as [(_ & _ & ->)|[(_ & -> & _)|(_ & -> & _)]]; cbn.
    + split; [intros _; split; [done|by eexists]|].
      intros _. right. apply list_elem_of_here.
    + split; [|by intros [_ [n Hn]]].
      intros [H|H]; [done|]. by apply elem_of_nil in H.
    + destruct write_error as [err|]; cbn.
      * split; [|by intros [_ [n Hn]]].
        intros [H|H]; [done|].
        repeat (apply elem_of_cons in H as [H|H]; [discriminate|]).
        by apply elem_of_nil in H.
      * split; [intros _; split; [done|by eexists]|].
        intros _. right. do 2 apply list_elem_of_further.
        apply list_elem_of_here.
  - cbn. split; [intros H; by apply elem_of_nil in H|by intros [? _]].
Qed.
End ConnectionSocketMore.

(** ** The upgrade handler: every case *)

Section UpgradeMore.
Context (srv : Server).

(** X9: whatever the token, the upgrade handler completes the handshake
    exactly once and ends normally: a request is never left without a
    WebSocket, and no exception escapes the handler. *)
Theorem on_upgrade_always_handshakes new_id request :
  (∃ c, outcome (on_upgrade srv new_id request) = Ret c)
  ∧ length (List.filter is_handshake (trace (on_upgrade srv new_id request)))
    = 1%nat.
Proof.
  unfold on_upgrade, decode.
  destruct (decodeToken srv (Some (substring1 (url_pathname request))))
    as [err|payload].
  - destruct (LOGGING_ENABLED srv); cbn; split; (by eexists) || done.
  - rewrite M_bind_ret.
    destruct (bool_decide (productId (workspace payload) = srv_productId srv));
      destruct (LOGGING_ENABLED srv); cbn; split; (by eexists) || done.
Qed.

(** X10: a connection is accepted exactly when its token decodes and names
    the configured product.  Then the handshake is followed by one call of
    [addSession], with the decoded token, the raw token (the path without
    its first character), the configured product and the [sessionId]
    parameter, on a fresh socket that is not closed, and no frame is
    written. *)
Theorem on_upgrade_accepts_iff new_id request :
  (∀ payload,
     decodeToken srv (Some (substring1 (url_pathname request))) = inr payload →
     productId (workspace payload) = srv_productId srv →
     on_upgrade srv new_id request
     = ([WssHandleUpgrade;
         AddSession payload (substring1 (url_pathname request))
           (srv_productId srv) (url_sessionId request)],
        Ret (Accepted
               (createWebsocketClientSocket new_id
                  (socket_data request payload))
               payload (substring1 (url_pathname request)))))
  ∧ (∀ cs payload raw,
     outcome (on_upgrade srv new_id request) = Ret (Accepted cs payload raw) →
     decodeToken srv (Some (substring1 (url_pathname request))) = inr payload
     ∧ productId (workspace payload) = srv_productId srv
     ∧ raw = substring1 (url_pathname request)
     ∧ isClosed cs = false).
Proof.
  unfold on_upgrade, decode. split.
  - intros payload -> Hp. rewrite M_bind_ret.
    by rewrite bool_decide_eq_true_2 by done.
  - intros cs payload raw.
    destruct (decodeToken srv (Some (substring1 (url_pathname request))))
      as [err|payload'].
    + by destruct (LOGGING_ENABLED srv).
    + rewrite M_bind_ret.
      destruct (bool_decide (productId (workspace payload')
                             = srv_productId srv)) eqn:Hp.
      * apply bool_decide_eq_true in Hp. cbn. by intros [= <- <- <-].
      * by destruct (LOGGING_ENABLED srv).
Qed.
End UpgradeMore.

(** ** The control endpoints: every case *)

Section ControlPlaneMore.
Context (srv : Server).

(** X11: the two control handlers answer every request once, with 200 or
    404, and let no exception escape; the one exception is a reboot, which
    ends the process before anything is answered. *)
Theorem control_endpoints_respond_once req :
  (manage_put srv req = ([ProcessExit 0], Exit 0)
   ∨ (outcome (manage_put srv req) = Ret tt
      ∧ (status_codes (trace (manage_put srv req)) = [200]
         ∨ status_codes (trace (manage_put srv req)) = [404])
      ∧ bodies (trace (manage_put srv req)) = [None]))
  ∧ outcome (statistics_get srv req) = Ret tt
  ∧ (status_codes (trace (statistics_get srv req)) = [200]
     ∨ status_codes (trace (statistics_get srv req)) = [404])
  ∧ length (bodies (trace (statistics_get srv req))) = 1%nat.
Proof.
  split.
  - destruct (authorised srv req) eqn:Ha.
    + rewrite (manage_put_authorised srv req Ha). cbv zeta.
      destruct (bool_decide (_ = Some "maintenance")); [right; by auto|].
      destruct (bool_decide (_ = Some "wipe-statistics")); [right; by auto|].
      destruct (bool_decide (_ = Some "force-close")); [right; by auto|].
      destruct (bool_decide (_ = Some "reboot")); [by left|right; by auto].
    + destruct (manage_put_unauthorised srv req Ha) as (-> & -> & _ & ->).
      right. by auto.
  - unfold statistics_get, decode.
    destruct (decodeToken srv (query req !! "token")) as [err|payload].
    + by auto.
    + rewrite M_bind_ret. by auto.
Qed.

(** X12: the manage endpoint answers 200 exactly when the token is an
    administrator's and the operation is maintenance, wipe-statistics or
    force-close. *)
Theorem manage_put_ok_iff req :
  status_codes (trace (manage_put srv req)) = [200]
  ↔ authorised srv req = true
    ∧ query req !! "operation"
      ∈ [Some "maintenance"; Some "wipe-statistics"; Some "force-close"].
Proof.
  destruct (authorised srv req) eqn:Ha.
  - rewrite (manage_put_authorised srv req Ha). cbv zeta.
    case_bool_decide as H1.
    { rewrite H1. split; [intros _|done]. split; [done|]. apply list_elem_of_here. }
    case_bool_decide as H2.
    { rewrite H2. split; [intros _|done]. split; [done|].
      apply list_elem_of_further, list_elem_of_here. }
    case_bool_decide as H3.
    { rewrite H3. split; [intros _|done]. split; [done|].
      do 2 apply list_elem_of_further. apply list_elem_of_here. }
    assert (query req !! "operation"
            ∉ [Some "maintenance"; Some "wipe-statistics"; Some "force-close"])
      as Hnot.
    { intros Hin. rewrite !elem_of_cons in Hin.
      destruct Hin as [?|[?|[?|Hin]]]; [done|done|done|].
      by apply elem_of_nil in Hin. }
    case_bool_decide; (split; [done|by intros [_ ?]]).
  - destruct (manage_put_unauthorised srv req Ha) as (-> & _).
    split; [done|by intros [? _]].
Qed.

(** X13: the maintenance operation does not validate its [timeout]: a
    value that is empty, or that begins with an ASCII character that is
    neither white space, a sign nor a digit, schedules [NaN] minutes; a minus
    sign before a decimal numeral from 1 to 2^53 schedules that negative
    number of minutes; and the answer is 200 in each case. *)
Theorem manage_put_maintenance_unvalidated req :
  authorised srv req = true →
  query req !! "operation" = Some "maintenance" →
  (query req !! "timeout" = Some "" →
     manage_put srv req
     = ([ScheduleMaintenance JNaN; ResWriteHead 200 None; ResEnd None], Ret tt))
  ∧ (∀ c r, query req !! "timeout" = Some (String c r) →
       byte_code c < 128 → is_white_space c = false →
       c ≠ "-"%char → c ≠ "+"%char → is_decimal_digit c = false →
       manage_put srv req
       = ([ScheduleMaintenance JNaN; ResWriteHead 200 None; ResEnd None],
          Ret tt))
  ∧ (∀ ds, ds ≠ [] → Forall (λ d, (d < 10)%nat) ds →
       0 < decimal_value ds <= 9007199254740992 →
       query req !! "timeout" = Some (String "-" (decimal ds)) →
       manage_put srv req
       = ([ScheduleMaintenance (JNum (- decimal_value ds));
           ResWriteHead 200 None; ResEnd None], Ret tt)).
Proof.
  intros Ha Hop. rewrite (manage_put_authorised srv req Ha), Hop. cbv zeta.
  rewrite bool_decide_eq_true_2 by done.
  split; [|split].
  - by intros ->.
  - intros c r -> Hc Hw Hm Hp Hd.
    change (default "5" (Some (String c r))) with (String c r).
    by rewrite (parseInt_not_a_number c r Hc Hw Hm Hp Hd).
  - intros ds Hne Hds [Hpos Hmax] ->.
    change (default "5" (Some (String "-" (decimal ds))))
      with (String "-" (decimal ds)).
    destruct (parseInt_signed ds Hne Hds Hmax) as (_ & Hminus & _).
    by rewrite (Hminus Hpos).
Qed.
End ControlPlaneMore.

(** ** The account service *)

Lemma slice_app (p t : string) : slice (String.length p) (p +:+ t) = t.
Proof. induction p as [|c p IH]; [by destruct t|done]. Qed.

Lemma slice_short n (s : string) :
  (String.length s ≤ n)%nat → slice n s = "".
Proof.
  revert s. induction n as [|n IH]; intros s Hs.
  - destruct s; [done|]. cbn in Hs. lia.
  - destruct s as [|c s]; [done|]. cbn in *. apply IH. lia.
Qed.

(** X14: [extractToken] gives back the token of a [Bearer] header, gives
    nothing without an [Authorization] header, and does not look at the
    scheme: any seven characters are cut off, and a value of at most seven
    characters yields the empty token. *)
Theorem extractToken_cuts_seven :
  extractToken None = None
  ∧ (∀ t, extractToken (Some ("Bearer " +:+ t)) = Some t)
  ∧ (∀ p t, String.length p = 7%nat → extractToken (Some (p +:+ t)) = Some t)
  ∧ (∀ v, (String.length v ≤ 7)%nat → extractToken (Some v) = Some "").
Proof.
  unfold extractToken. split; [done|]. split; [|split].
  - intros t. reflexivity.
  - intros p t Hp. change (Some (slice 7 (p +:+ t)) = Some t).
    by rewrite <- Hp, slice_app.
  - intros v Hv. change (Some (slice 7 v) = Some "").
    by rewrite slice_short.
Qed.

(** X15: [serveAccount] exits with code 1 exactly when [MONGO_URL],
    [TRANSACTOR_URL] or [SERVER_SECRET] is not set (an empty value counts as
    set); it has then logged one message and has set no metadata and opened
    no connection.  Otherwise it connects to the database once and calls
    [listen] last, with [parseInt] of [ACCOUNT_PORT]; the run ends normally
    when that port is legal, which the default 3000 is, and with
    [ERR_SOCKET_BAD_PORT] thrown by [listen] when it is not. *)
Theorem serveAccount_requires_environment env :
  ((serveAccount env).2 = Exit 1
   ↔ env !! "MONGO_URL" = None ∨ env !! "TRANSACTOR_URL" = None
     ∨ env !! "SERVER_SECRET" = None)
  ∧ ((serveAccount env).2 = Exit 1 →
     ∃ msg, (serveAccount env).1 = [ConsoleLog msg])
  ∧ ((serveAccount env).2 ≠ Exit 1 →
     (serveAccount env).2
     = (if legal_port (parseInt (default "3000" (env !! "ACCOUNT_PORT")))
        then Ret tt else Throw "ERR_SOCKET_BAD_PORT")
     ∧ (env !! "ACCOUNT_PORT" = None → (serveAccount env).2 = Ret tt)
     ∧ last ((serveAccount env).1)
       = Some (Listen (parseInt (default "3000" (env !! "ACCOUNT_PORT"))))
     ∧ ∃ dbUri, env !! "MONGO_URL" = Some dbUri
       ∧ List.filter is_connect ((serveAccount env).1)
         = [MongoConnect dbUri]).
Proof.
  unfold serveAccount.
  destruct (env !! "MONGO_URL") as [dbUri|];
    [|split; [split; [by auto|done]|split; [by eexists|done]]].
  destruct (env !! "TRANSACTOR_URL") as [transactorUri|];
    [|split; [split; [by auto|done]|split; [by eexists|done]]].
  destruct (env !! "SERVER_SECRET") as [serverSecret|];
    [|split; [split; [by auto|done]|split; [by eexists|done]]].
  cbn [fst snd].
  split; [split; [by destruct (legal_port _)|by intros [?|[?|?]]]|].
  split; [by destruct (legal_port _)|].
  intros _. split; [done|]. split; [by intros ->|].
  split; [by destruct (env !! "INIT_WORKSPACE")|].
  exists dbUri. split; [done|].
  by destruct (env !! "INIT_WORKSPACE").
Qed.

(** X16: when [serveAccount] starts, the endpoint it publishes is
    [ENDPOINT_URL], or the transactor URL when that is not set; the locale is
    [LANGUAGE], or ['en']; and [InitWorkspace] is set only when
    [INIT_WORKSPACE] is. *)
Theorem serveAccount_defaults env dbUri transactorUri serverSecret :
  env !! "MONGO_URL" = Some dbUri →
  env !! "TRANSACTOR_URL" = Some transactorUri →
  env !! "SERVER_SECRET" = Some serverSecret →
  metadata_of "Endpoint" ((serveAccount env).1)
  = Some (Some (default transactorUri (env !! "ENDPOINT_URL")))
  ∧ metadata_of "Transactor" ((serveAccount env).1)
    = Some (Some transactorUri)
  ∧ metadata_of "locale" ((serveAccount env).1)
    = Some (Some (default "en" (env !! "LANGUAGE")))
  ∧ metadata_of "InitWorkspace" ((serveAccount env).1)
    = Some <$> env !! "INIT_WORKSPACE".
Proof.
  intros Hdb Htr Hsecret. unfold serveAccount. rewrite Hdb, Htr, Hsecret.
  by destruct (env !! "INIT_WORKSPACE").
Qed.

(** X17: for a method the table does not know, the rpc handler puts the
    [UnknownMethod] response into the body and goes on: it invokes no
    method, never ends normally (awaiting the client fails, or calling the
    undefined method throws), and leaves the [UnknownMethod] body behind. *)
Theorem rpc_post_unknown_method methods connect_error worker authorization
    request :
  methods (default "undefined" (rpc_method request)) = None →
  (∃ err, (rpc_post methods connect_error worker authorization request).2
          = Throw err)
  ∧ List.filter is_invoke
      (rpc_post methods connect_error worker authorization request).1
    = []
  ∧ final_body
      (rpc_post methods connect_error worker authorization request).1
    = Some (UnknownMethodBody (rpc_id request) (rpc_method request)).
Proof.
  intros Hm. unfold rpc_post. rewrite Hm.
  destruct connect_error as [err|]; (split; [by eexists|done]).
Qed.

(** X18: for a known method that resolves, once the client is connected,
    the handler invokes that method exactly once, with the request and with
    the [Authorization] header cut by seven characters as token, and the
    result is the body it leaves. *)
Theorem rpc_post_known_method methods worker authorization request m r :
  methods (default "undefined" (rpc_method request)) = Some m →
  m request (slice 7 <$> authorization) = inr r →
  (rpc_post methods None worker authorization request).2 = Ret tt
  ∧ List.filter is_invoke
      (rpc_post methods None worker authorization request).1
    = [InvokeMethod (default "undefined" (rpc_method request)) request
         (slice 7 <$> authorization)]
  ∧ final_body (rpc_post methods None worker authorization request).1
    = Some (ResultBody r).
Proof.
  intros Hm Hr. unfold rpc_post, extractToken. rewrite Hm, Hr.
  by destruct worker.
Qed.

(** ** Shutdown, logging and what a non-administrator sees *)

(** X19: the shutdown function closes the workspaces, the WebSocket server
    and the HTTP server in that order and stops at the first step that
    fails: what it has done is always an initial part of the three steps in
    that order and begins with the workspaces; the WebSocket server is closed
    exactly when the workspaces closed without error, the HTTP server exactly
    when the two steps before it succeeded; it resolves exactly when all
    three succeed, and otherwise rejects with the error of the first step
    that failed. *)
Theorem shutdown_stops_at_first_failure workspaces_error wss_error http_error :
  ((shutdown workspaces_error wss_error http_error).2 = Ret tt
   ↔ workspaces_error = None ∧ wss_error = None ∧ http_error = None)
  ∧ (HttpServerClose ∈ (shutdown workspaces_error wss_error http_error).1
     ↔ workspaces_error = None ∧ wss_error = None)
  ∧ (∀ err, (shutdown workspaces_error wss_error http_error).2 = Throw err →
       workspaces_error = Some err
       ∨ (workspaces_error = None ∧ wss_error = Some err)
       ∨ (workspaces_error = None ∧ wss_error = None ∧ http_error = Some err))
  ∧ (∃ rest, (shutdown workspaces_error wss_error http_error).1
             = CloseWorkspaces :: rest)
  ∧ (shutdown workspaces_error wss_error http_error).1
    `prefix_of` [CloseWorkspaces; WssClose; HttpServerClose]
  ∧ (WssClose ∈ (shutdown workspaces_error wss_error http_error).1
     ↔ workspaces_error = None)
  ∧ (shutdown workspaces_error wss_error http_error).1
    = CloseWorkspaces
      :: match workspaces_error, wss_error with
         | Some _, _ => []
         | None, Some _ => [WssClose]
         | None, None => [WssClose; HttpServerClose]
         end.
Proof.
  assert (∀ e : ShutdownEffect, e ∈ [CloseWorkspaces; WssClose] →
            e ≠ HttpServerClose) as Hno.
  { intros e He. rewrite !elem_of_cons in He.
    destruct He as [->|[->|He]]; [done|done|by apply elem_of_nil in He]. }
  assert (WssClose ∈ [CloseWorkspaces; WssClose]) as Hwss2
    by (apply list_elem_of_further, list_elem_of_here).
  assert (WssClose ∈ [CloseWorkspaces; WssClose; HttpServerClose]) as Hwss3
    by (apply list_elem_of_further, list_elem_of_here).
  unfold shutdown.
  destruct workspaces_error as [e1|]; cbn.
  { split; [split; [done|by intros (? & _)]|].
    split; [split; [|by intros (? & _)]|].
    { intros H. apply list_elem_of_singleton in H. done. }
    split; [intros ? [= <-]; by left|]. split; [by eexists|].
    split; [by exists [WssClose; HttpServerClose]|].
    split; [|done]. split; [|done].
    intros H. apply list_elem_of_singleton in H. done. }
  destruct wss_error as [e2|]; cbn.
  { split; [split; [done|by intros (_ & ? & _)]|].
    split; [split; [|by intros (_ & ?)]|].
    { intros H. by destruct (Hno _ H). }
    split; [intros ? [= <-]; right; by left|]. split; [by eexists|].
    split; [by exists [HttpServerClose]|]. done. }
  assert (HttpServerClose ∈ [CloseWorkspaces; WssClose; HttpServerClose])
    as Hin by (do 2 apply list_elem_of_further; apply list_elem_of_here).
  destruct http_error as [e3|]; cbn.
  - split; [split; [done|by intros (_ & _ & ?)]|].
    split; [done|]. split; [intros ? [= <-]; right; right; done|].
    split; [by eexists|]. split; [by exists []|]. done.
  - split; [done|]. split; [done|]. split; [done|].
    split; [by eexists|]. split; [by exists []|]. done.
Qed.

Section LoggingFacts.
Context (srv : Server).

(** X20: [LOGGING_ENABLED] changes nothing but the [ctx.error] lines of
    the upgrade handler: with any setting the connection is decided the same
    way and every other effect, the report to [Analytics] included, is the
    same; after [disableLogging] no [ctx.error] line is left. *)
Theorem logging_only_changes_log_lines b new_id request :
  outcome (on_upgrade (set_logging b srv) new_id request)
  = outcome (on_upgrade srv new_id request)
  ∧ List.filter (λ e, negb (is_ctx_error e))
      (trace (on_upgrade (set_logging b srv) new_id request))
    = List.filter (λ e, negb (is_ctx_error e))
        (trace (on_upgrade srv new_id request))
  ∧ List.filter is_ctx_error
      (trace (on_upgrade (disableLogging srv) new_id request)) = [].
Proof.
  unfold disableLogging, on_upgrade, decode. cbn [decodeToken set_logging].
  destruct (decodeToken srv (Some (substring1 (url_pathname request))))
    as [err|payload].
  - cbn. by destruct b, (LOGGING_ENABLED srv).
  - rewrite !M_bind_ret. cbn [srv_productId set_logging].
    destruct (bool_decide (productId (workspace payload) = srv_productId srv)).
    + done.
    + cbn. by destruct b, (LOGGING_ENABLED srv).
Qed.

(** X21: what the statistics endpoint answers to a token that is not an
    administrator's does not depend on the registry of workspaces: over any
    other registry, with the same flat index of sessions, the response is
    the same. *)
Theorem statistics_get_hides_workspaces ws req :
  authorised srv req = false →
  statistics_get (with_workspaces ws srv) req = statistics_get srv req.
Proof.
  unfold authorised, statistics_get, decode, is_admin.
  cbn [decodeToken with_workspaces].
  destruct (decodeToken srv (query req !! "token")) as [err|payload];
    [done|].
  intros Ha. rewrite !M_bind_ret, Ha. reflexivity.
Qed.
End LoggingFacts.

(** ** The further properties on the sample data *)

Example serveAccount_sample_port :
  (serveAccount Fixture.env).2 = Ret tt
  ∧ (serveAccount (<["ACCOUNT_PORT" := "http"]> Fixture.env)).2
    = Throw "ERR_SOCKET_BAD_PORT"
  ∧ (serveAccount (<["ACCOUNT_PORT" := "70000"]> Fixture.env)).2
    = Throw "ERR_SOCKET_BAD_PORT"
  ∧ last (serveAccount (<["ACCOUNT_PORT" := "8080"]> Fixture.env)).1
    = Some (Listen (JNum 8080)).
Proof. repeat split; vm_compute; reflexivity. Qed.

Example shutdown_sample_order :
  shutdown None (Some "server is busy") None
  = ([CloseWorkspaces; WssClose], Throw "server is busy").
Proof. reflexivity. Qed.




Lemma wipeStatistics_cycle_never_finishes_witness :
  wipeStatistics 1000 (MeasureMetricsContext 1%positive) Fixture.looping_state
  ≠ Finished Fixture.looping_state.
Proof.
  apply (wipeStatistics_cycle_never_finishes 1000 1%positive
           Fixture.looping_state Fixture.looping_state [1%positive]
           1%positive).
  - vm_compute. reflexivity.
  - apply list_elem_of_here.
  - apply reach_here.
Defined.

Lemma getStatistics_admin_entries_witness :
  ∃ vv, workspaces Sample.a_manager !! "w1@" = Some vv
    ∧ sessionsTotal (workspace_stats Sample.workspace_string Sample.a_workspace)
      = size (ws_sessions vv).
Proof.
  destruct (getStatistics_admin_entries Sample.workspace_string
              Sample.the_gauges OtherMeasureContext Sample.a_manager "w1@"
              (workspace_stats Sample.workspace_string Sample.a_workspace))
    as (vv & Hvv & _ & Hsize & _).
  - vm_compute. reflexivity.
  - exists vv. split; [exact Hvv|exact Hsize].
Defined.

Lemma manage_put_maintenance_unvalidated_witness :
  manage_put Sample.server
    (Sample.request [("token", "admin"); ("operation", "maintenance");
                     ("timeout", "soon")])
  = ([ScheduleMaintenance JNaN; ResWriteHead 200 None; ResEnd None], Ret tt).
Proof.
  destruct (manage_put_maintenance_unvalidated Sample.server
              (Sample.request [("token", "admin");
                               ("operation", "maintenance");
                               ("timeout", "soon")]))
    as (_ & Hnan & _).
  - vm_compute. reflexivity.
  - vm_compute. reflexivity.
  - apply (Hnan "s"%char "oon").
    + vm_compute. reflexivity.
    + vm_compute. reflexivity.
    + reflexivity.
    + discriminate.
    + discriminate.
    + reflexivity.
Defined.

Lemma serveAccount_defaults_witness :
  metadata_of "Endpoint" (serveAccount Fixture.env).1
  = Some (Some "ws://transactor")
  ∧ metadata_of "InitWorkspace" (serveAccount Fixture.env).1 = None.
Proof.
  destruct (serveAccount_defaults Fixture.env "mongodb://db" "ws://transactor"
              "secret") as (Hendpoint & _ & _ & Hinit).
  - vm_compute. reflexivity.
  - vm_compute. reflexivity.
  - vm_compute. reflexivity.
  - split; [exact Hendpoint|exact Hinit].
Defined.

Lemma rpc_post_unknown_method_witness :
  final_body
    (rpc_post Fixture.methods None true (Some "Bearer abc")
       Fixture.unknown_request).1
  = Some (UnknownMethodBody (Some (IdNum 8)) (Some "logout"))
  ∧ ∃ err, (rpc_post Fixture.methods None true (Some "Bearer abc")
              Fixture.unknown_request).2 = Throw err.
Proof.
  destruct (rpc_post_unknown_method Fixture.methods None true
              (Some "Bearer abc") Fixture.unknown_request)
    as (Hthrow & _ & Hbody).
  - reflexivity.
  - split; [exact Hbody|exact Hthrow].
Defined.

Lemma rpc_post_known_method_witness :
  List.filter is_invoke
    (rpc_post Fixture.methods None true (Some "Bearer abc")
       Fixture.login_request).1
  = [InvokeMethod "login" Fixture.login_request (Some "abc")].
Proof.
  destruct (rpc_post_known_method Fixture.methods true (Some "Bearer abc")
              Fixture.login_request Fixture.login (JSString "logged in"))
    as (_ & Hinvoke & _).
  - reflexivity.
  - reflexivity.
  - exact Hinvoke.
Defined.

Lemma statistics_get_hides_workspaces_witness :
  statistics_get (with_workspaces ∅ Sample.server)
    (Sample.request [("token", "user")])
  = statistics_get Sample.server (Sample.request [("token", "user")]).
Proof.
  apply (statistics_get_hides_workspaces Sample.server ∅
           (Sample.request [("token", "user")])).
  vm_compute. reflexivity.
Defined.

Lemma sample_tree :
  tree_size (shape (store Sample.a_state)) 1%positive 3.
Proof.
  apply (tree_size_node _ 1%positive [2%positive; 3%positive] [1; 1]%nat).
  - vm_compute. reflexivity.
  - repeat constructor.
    + apply (tree_size_node _ 2%positive [] []); [vm_compute; reflexivity|].
      constructor.
    + apply (tree_size_node _ 3%positive [] []); [vm_compute; reflexivity|].
      constructor.
Qed.

Lemma wipeStatistics_finishes_iff_witness :
  ∃ st', wipeStatistics 3 (MeasureMetricsContext 1%positive) Sample.a_state
         = Finished st'.
Proof.
  apply (wipeStatistics_finishes_iff 3 1%positive Sample.a_state).
  exists 3%nat. split; [lia|exact sample_tree].
Defined.

Lemma send_accounts_what_it_returns_witness :
  measured (trace (send Sample.server 3 Sample.draining None Sample.a_socket
                     Sample.pong true false)) = 42.
Proof.
  destruct (send_accounts_what_it_returns Sample.server 3 Sample.draining None
              Sample.a_socket Sample.pong true false) as (Hret & _ & _).
  apply Hret. vm_compute. reflexivity.
Defined.

Lemma send_rejects_iff_witness :
  outcome (send Sample.server 0 (λ _, Sample.closed_ws)
             (Some "WebSocket is not open") Sample.closed_socket Sample.pong
             false false)
  = Throw "WebSocket is not open".
Proof.
  apply (send_rejects_iff Sample.server 0 (λ _, Sample.closed_ws)
           (Some "WebSocket is not open") Sample.closed_socket Sample.pong
           false false "WebSocket is not open").
  split; [reflexivity|]. split; [right; reflexivity|].
  exists O. split; [lia|]. right. discriminate.
Defined.

Lemma session_resolved_closes_iff_witness :
  WsClose ∈ trace (session_resolved Sample.server 0 (λ _, Sample.open_ws 0)
                     None Sample.a_socket (AddSessionError "no pipeline")).
Proof.
  apply (session_resolved_closes_iff Sample.server 0 (λ _, Sample.open_ws 0)
           None Sample.a_socket (AddSessionError "no pipeline")).
  split; [reflexivity|]. exists 42. vm_compute. reflexivity.
Defined.

Lemma on_upgrade_accepts_iff_witness :
  trace (on_upgrade Sample.server "c1" (Sample.upgrade_request "/user"))
  = [WssHandleUpgrade; AddSession Sample.user_token "user" "" None].
Proof.
  destruct (on_upgrade_accepts_iff Sample.server "c1"
              (Sample.upgrade_request "/user")) as (Haccept & _).
  rewrite (Haccept Sample.user_token eq_refl eq_refl). reflexivity.
Defined.

Lemma manage_put_ok_iff_witness :
  status_codes
    (trace (manage_put Sample.server
              (Sample.request [("token", "admin");
                               ("operation", "force-close")])))
  = [200].
Proof.
  apply (manage_put_ok_iff Sample.server
           (Sample.request [("token", "admin");
                            ("operation", "force-close")])).
  split; [vm_compute; reflexivity|].
  assert (query (Sample.request [("token", "admin");
                                 ("operation", "force-close")])
            !! "operation" = Some "force-close") as ->
    by (vm_compute; reflexivity).
  do 2 apply list_elem_of_further. apply list_elem_of_here.
Defined.

Lemma extractToken_cuts_seven_witness :
  extractToken (Some "Basic77abc") = Some "abc".
Proof.
  destruct extractToken_cuts_seven as (_ & _ & Hany & _).
  apply (Hany "Basic77" "abc"). reflexivity.
Defined.

Lemma serveAccount_requires_environment_witness :
  (serveAccount Fixture.env_no_secret).2 = Exit 1.
Proof.
  destruct (serveAccount_requires_environment Fixture.env_no_secret)
    as (Hexit & _).
  apply Hexit. right. right. vm_compute. reflexivity.
Defined.

Lemma shutdown_stops_at_first_failure_witness :
  HttpServerClose ∉ (shutdown None (Some "server is busy") None).1.
Proof.
  destruct (shutdown_stops_at_first_failure None (Some "server is busy") None)
    as (_ & Hhttp & _).
  intros Hin. apply Hhttp in Hin as [_ Hwss]. discriminate Hwss.
Defined.
